(** * Room booking services: a shallow embedding of the three servers

    The repository holds three line-oriented HTTP-like services written in
    Python: [room_server.py] (rooms and booked room-hours), [activity_server.py]
    (known activity names) and [reservation_server.py] (the coordinator that
    talks to the other two over sockets and keeps the reservation records).

    Conventions of the embedding:
    - byte strings and text are both [string] (sequences of 8-bit characters);
      [encode]/[decode] are the identity, which is what UTF-8 does on ASCII;
    - a SQLite table is the list of its rows in insertion order;
    - a Python exception is the [Raise] case of [res]; a handler that falls off
      its end returns [PyNone];
    - a method that mutates [self.db] takes the table contents and returns the
      new contents together with its result. *)

From Stdlib Require Import ZArith Lia List Bool Sorted.
From Stdlib Require Ascii String.
Import (notations) Ascii.
From Stdlib Require Import DecimalString DecimalZ DecimalPos.
From stdpp Require Import gmap strings list.

Local Open Scope Z_scope.

(** ** Python built-ins used by the servers *)

Module Py.

Inductive exn : Type :=
  | IndexError | ValueError | TypeError | AttributeError.

Inductive res (A : Type) : Type :=
  | Ok (a : A)
  | Raise (e : exn).
Arguments Ok {A} a.
Arguments Raise {A} e.

Definition bind {A B} (m : res A) (f : A -> res B) : res B :=
  match m with
  | Ok a => f a
  | Raise e => Raise e
  end.

(** What a handler hands back to [connection.sendall]: bytes, or [None]. *)
Inductive pyret : Type :=
  | Bytes (s : string)
  | PyNone.

Definition LF : string := String (Ascii.ascii_of_nat 10) EmptyString.

Definition SP : Ascii.ascii := Ascii.ascii_of_nat 32.

(** [s.split(sep)] for a one-character separator: never the empty list. *)
Fixpoint split (sep : Ascii.ascii) (s : string) : list string :=
  match s with
  | EmptyString => [EmptyString]
  | String c s' =>
      if Ascii.eqb c sep then EmptyString :: split sep s'
      else match split sep s' with
           | w :: ws => String c w :: ws
           | [] => [String c EmptyString]
           end
  end.

(** [s.split(sep, maxsplit)]: at most [maxsplit] cuts, the rest is kept whole. *)
Fixpoint splitn (sep : Ascii.ascii) (s : string) (maxsplit : nat) {struct s}
  : list string :=
  match maxsplit with
  | O => [s]
  | S m =>
      match s with
      | EmptyString => [EmptyString]
      | String c s' =>
          if Ascii.eqb c sep then EmptyString :: splitn sep s' m
          else match splitn sep s' maxsplit with
               | w :: ws => String c w :: ws
               | [] => [String c EmptyString]
               end
      end
  end.

(** [l[i]] with Python's negative indices. *)
Definition getitem {A} (l : list A) (i : Z) : res A :=
  let n := Z.of_nat (length l) in
  let j := if i <? 0 then i + n else i in
  if (0 <=? j) && (j <? n) then
    match nth_error l (Z.to_nat j) with
    | Some x => Ok x
    | None => Raise IndexError
    end
  else Raise IndexError.

(** [needle in hay] on strings. *)
Fixpoint str_in (needle hay : string) : bool :=
  String.prefix needle hay
  || match hay with
     | EmptyString => false
     | String _ hay' => str_in needle hay'
     end.

(** [range(a, b)] and [range(n)]. *)
Definition range2 (a b : Z) : list Z :=
  map (fun i => a + Z.of_nat i) (seq 0 (Z.to_nat (b - a))).

Definition range (n : Z) : list Z := range2 0 n.

(** [l.remove(x)]: drops the first occurrence, [None] stands for ValueError. *)
Fixpoint list_remove (x : Z) (l : list Z) : option (list Z) :=
  match l with
  | [] => None
  | y :: l' =>
      if y =? x then Some l'
      else match list_remove x l' with
           | Some r => Some (y :: r)
           | None => None
           end
  end.

(** [str(z)] for an integer: the canonical decimal numeral. *)
Definition str (z : Z) : string := NilZero.string_of_int (Z.to_int z).

(** Characters [str.strip()] removes when [int()] reads a text. *)
Definition is_space (c : Ascii.ascii) : bool :=
  let n := Ascii.nat_of_ascii c in
  ((n =? 32) || ((9 <=? n) && (n <=? 13)) || ((28 <=? n) && (n <=? 31)))%nat.

(** Leading and trailing characters of a class taken off a text. *)
Fixpoint lstrip (space : Ascii.ascii -> bool) (s : string) : string :=
  match s with
  | String c s' => if space c then lstrip space s' else s
  | EmptyString => EmptyString
  end.

Fixpoint rstrip (space : Ascii.ascii -> bool) (s : string) : string :=
  match s with
  | EmptyString => EmptyString
  | String c s' =>
      match rstrip space s' with
      | EmptyString => if space c then EmptyString else String c EmptyString
      | r => String c r
      end
  end.

Definition is_digit (c : Ascii.ascii) : bool :=
  let n := Ascii.nat_of_ascii c in ((48 <=? n) && (n <=? 57))%nat.

Fixpoint all_digits (s : string) : bool :=
  match s with
  | EmptyString => true
  | String c s' => is_digit c && all_digits s'
  end.

(** Digits of an [int()] literal with the single underscores between two
    digits taken out; [None] when an underscore is misplaced. *)
Fixpoint drop_underscores (s : string) : option string :=
  match s with
  | EmptyString => Some EmptyString
  | String c s' =>
      if Ascii.eqb c "_"%char then None
      else
        match s' with
        | String u s'' =>
            if Ascii.eqb u "_"%char then
              match s'' with
              | EmptyString => None
              | String _ _ =>
                  if is_digit c then
                    match drop_underscores s'' with
                    | Some r => Some (String c r)
                    | None => None
                    end
                  else None
              end
            else
              match drop_underscores s' with
              | Some r => Some (String c r)
              | None => None
              end
        | EmptyString => Some (String c EmptyString)
        end
  end.

Definition nat_literal (s : string) : option Z :=
  match drop_underscores s with
  | Some t =>
      match NilZero.uint_of_string t with
      | Some u => Some (Z.of_uint u)
      | None => None
      end
  | None => None
  end.

(** [int(s)] on a text, base 10; [None] stands for ValueError. *)
Definition int (s : string) : option Z :=
  match rstrip is_space (lstrip is_space s) with
  | String c t =>
      if Ascii.eqb c "-"%char then option_map Z.opp (nat_literal t)
      else if Ascii.eqb c "+"%char then nat_literal t
      else nat_literal (String c t)
  | EmptyString => None
  end.

(** A [for] loop whose body may [return]: [Some r] leaves the loop and the
    function, [None] goes on with the next element. *)
Fixpoint for_each {A S R} (xs : list A) (body : A -> S -> S * option R) (s : S)
  : S * option R :=
  match xs with
  | [] => (s, None)
  | x :: xs' =>
      match body x s with
      | (s', Some r) => (s', Some r)
      | (s', None) => for_each xs' body s'
      end
  end.

(** The parsed query: a dict, or the [False] that [parse_request] returns for
    a sub-URL it does not accept. *)
Inductive pyquery : Type :=
  | QDict (q : gmap string string)
  | QFalse.

(** [query[key]] after [check_parameters] found the key. *)
Definition item (q : gmap string string) (k : string) : string :=
  default EmptyString (q !! k).

End Py.

Import Py.

(** ** What the three server classes share

    [base_html], [check_parameters] and [parse_request] are repeated verbatim
    in each class; only [accepted_sub_urls] differs. *)

Module Http.

#[export] Instance res_ret : MRet res := @Ok.
#[export] Instance res_bind : MBind res := fun A B f m => bind m f.

(** [base_html.format(title, body)] *)
Definition base_html (title body : string) : string :=
  "<HTML>" +:+ LF +:+ "<HEAD>" +:+ LF +:+ "<TITLE>" +:+ title +:+ "</TITLE>"
  +:+ LF +:+ "</HEAD>" +:+ LF +:+ "<BODY>" +:+ body +:+ "</BODY>" +:+ LF
  +:+ "</HTML>".

(** [f'HTTP/1.1 {status}\n\n{base_html.format(title, body)}'] *)
Definition response (status title body : string) : string :=
  "HTTP/1.1 " +:+ status +:+ LF +:+ LF +:+ base_html title body.

Definition bad_request (body : string) : string :=
  response "400 Bad Request" "Error" body.

(** [check_parameters]: the error response for the first missing parameter,
    [None] for the [False] returned when all are there. *)
Fixpoint check_parameters (parameters : list string) (query : gmap string string)
  : option string :=
  match parameters with
  | [] => None
  | parameter :: rest =>
      match query !! parameter with
      | None => Some (bad_request (parameter +:+ " parameter is mandatory"))
      | Some _ => check_parameters rest query
      end
  end.

(** The dict comprehension of [parse_request]: a later parameter overrides an
    earlier one of the same name; a parameter without [=] raises IndexError. *)
Fixpoint dict_of_params (params : list string) (acc : gmap string string)
  : res (gmap string string) :=
  match params with
  | [] => Ok acc
  | param :: rest =>
      k ← getitem (split "="%char param) 0;
      v ← getitem (split "="%char param) 1;
      dict_of_params rest (<[k := v]> acc)
  end.

Definition parse_request (accepted_sub_urls : list string) (request : string)
  : res (string * pyquery) :=
  url ← getitem (splitn SP request 2) 1;
  sub_url ← getitem (split "?"%char url) 0;
  if negb (existsb (String.eqb sub_url) accepted_sub_urls) then
    Ok (sub_url, QFalse)
  else
    qs ← getitem (split "?"%char url) 1;
    query ← dict_of_params (split "&"%char qs) ∅;
    Ok (sub_url, QDict query).

(** A handler applied to what [parse_request] gave: [check_parameters] on the
    [False] of an unaccepted sub-URL would raise TypeError. *)
Definition with_query {S} (query : pyquery)
    (handler : gmap string string -> S -> S * res pyret) (s : S)
  : S * res pyret :=
  match query with
  | QDict q => handler q s
  | QFalse => (s, Raise TypeError)
  end.

Definition invalid_url : string := bad_request "Invalid URL".

(** The status line of a response: what precedes its first line break. *)
Definition status_line (resp : string) : string :=
  hd EmptyString (split (Ascii.ascii_of_nat 10) resp).

(** Whether a character occurs in a text. *)
Fixpoint has_char (c : Ascii.ascii) (s : string) : bool :=
  match s with
  | EmptyString => false
  | String a s' => Ascii.eqb a c || has_char c s'
  end.

(** A text without the four characters [parse_request] cuts at. *)
Definition plain (s : string) : bool :=
  negb (has_char SP s || has_char "?"%char s || has_char "&"%char s
        || has_char "="%char s).

(** A parameter whose name and value are both plain. *)
Definition plain_item (kv : string * string) : Prop :=
  plain (fst kv) = true /\ plain (snd kv) = true.

(** The request text the coordinator's f-strings produce for a path and its
    parameters: [GET path?k1=v1&k2=v2 HTTP/1.1] and an empty line. *)
Definition param (kv : string * string) : string :=
  fst kv +:+ "=" +:+ snd kv.

Definition get_request (path : string) (kvs : list (string * string)) : string :=
  "GET " +:+ path +:+ "?" +:+ String.concat "&" (map param kvs)
  +:+ " HTTP/1.1" +:+ LF +:+ LF.

(** The dict with these items, later ones overriding earlier ones. *)
Definition dict_of (kvs : list (string * string)) : gmap string string :=
  fold_left (fun m kv => <[fst kv := snd kv]> m) kvs ∅.

(** The bytes a list of pieces takes once joined, one separator counted
    after each piece. *)
Definition total_len (pieces : list string) : nat :=
  fold_right (fun p n => (String.length p + 1 + n)%nat) O pieces.

(** The bytes the items of a dict take in a query string, [=] and one [&]
    counted with each item. *)
Definition weight (q : gmap string string) : nat :=
  map_fold (fun k v n => (String.length k + String.length v + 2 + n)%nat) O q.

(** A response whose status is 403 Forbidden. *)
Definition is_forbidden (resp : string) : bool :=
  String.prefix "HTTP/1.1 403 Forbidden" resp.

End Http.

Import Http.

(** ** room_server.py *)

Module RoomServer.

Definition accepted_sub_urls : list string :=
  ["/add"; "/remove"; "/reserve"; "/checkavailability"].

(** [room.db]: table [rooms (name)] and table [reservations (name, day, hour)]. *)
Record db : Type := Db {
  rooms : list string;
  reservations : list (string * Z * Z)
}.

(** [create_tables] on a fresh file. *)
Definition empty : db := Db [] [].

(** [SELECT * FROM rooms WHERE name=?] followed by [fetchone() is not None]. *)
Definition room_exists (d : db) (name : string) : bool :=
  existsb (String.eqb name) (rooms d).

(** [SELECT * FROM reservations WHERE name=? AND day=? AND hour=?] followed by
    [fetchone() is not None]. *)
Definition slot_taken (d : db) (name : string) (day hour : Z) : bool :=
  existsb (fun r => match r with
                    | (n, dy, h) => String.eqb n name && (dy =? day) && (h =? hour)
                    end)
          (reservations d).

(** [SELECT hour FROM reservations WHERE name=? AND day=?] with [fetchall()]. *)
Definition hours_of (d : db) (name : string) (day : Z) : list Z :=
  map (fun r => snd r)
      (List.filter (fun r => match r with
                             | (n, dy, _) => String.eqb n name && (dy =? day)
                             end)
                   (reservations d)).

Definition insert_room (d : db) (name : string) : db :=
  Db (rooms d ++ [name]) (reservations d).

Definition delete_room (d : db) (name : string) : db :=
  Db (List.filter (fun n => negb (String.eqb n name)) (rooms d)) (reservations d).

Definition insert_reservation (d : db) (name : string) (day hour : Z) : db :=
  Db (rooms d) (reservations d ++ [(name, day, hour)]).

Definition get_add (query : gmap string string) (d : db) : db * res pyret :=
  match check_parameters ["name"] query with
  | Some parameters_check => (d, Ok (Bytes parameters_check))
  | None =>
      let room_name := item query "name" in
      if room_exists d room_name then
        (d, Ok (Bytes (response "403 Forbidden" "Error" "Room already exists")))
      else
        (insert_room d room_name,
         Ok (Bytes (response "200 OK" "Room Added"
                      ("Room with name " +:+ room_name
                       +:+ " is successfully added."))))
  end.

Definition get_remove (query : gmap string string) (d : db) : db * res pyret :=
  match check_parameters ["name"] query with
  | Some parameters_check => (d, Ok (Bytes parameters_check))
  | None =>
      let room_name := item query "name" in
      if negb (room_exists d room_name) then
        (d, Ok (Bytes (response "403 Forbidden" "Error" "Room does not exist")))
      else
        (delete_room d room_name,
         Ok (Bytes (response "200 OK" "Room Removed"
                      ("Room with name " +:+ room_name
                       +:+ " is successfully removed"))))
  end.

Definition reserved_at (h : Z) : string :=
  response "403 Forbidden" "Error" ("Room is already reserved at " +:+ str h).

Definition reservation_successful (room_name : string) : string :=
  response "200 OK" "Reservation Successful"
           ("Room " +:+ room_name +:+ " is succesfuly reserved.").

(** The inner loop of [get_reserve]: one INSERT and one commit per hour. *)
Definition insert_hours (room_name : string) (day hour duration : Z) (d : db)
  : db :=
  fold_left (fun acc i => insert_reservation acc room_name day (hour + i))
            (range duration) d.

(** The body of the outer [for d in range(duration)] loop, as it is indented
    in the source: the check of hour [hour+d], then, still inside the loop,
    the insertion of all hours and the [return] of the 200 response. *)
Definition reserve_body (room_name : string) (day hour duration : Z)
    (i : Z) (d : db) : db * option string :=
  if slot_taken d room_name day (hour + i) then
    (d, Some (reserved_at (hour + i)))
  else
    (insert_hours room_name day hour duration d,
     Some (reservation_successful room_name)).

Definition get_reserve (query : gmap string string) (d : db) : db * res pyret :=
  match check_parameters ["name"; "day"; "hour"; "duration"] query with
  | Some parameters_check => (d, Ok (Bytes parameters_check))
  | None =>
      let room_name := item query "name" in
      match int (item query "day") with
      | None => (d, Raise ValueError)
      | Some day =>
      match int (item query "hour") with
      | None => (d, Raise ValueError)
      | Some hour =>
      match int (item query "duration") with
      | None => (d, Raise ValueError)
      | Some duration =>
          if negb ((1 <=? day) && (day <=? 7)) then
            (d, Ok (Bytes (bad_request "Invalid day parameter")))
          else if negb ((9 <=? hour) && (hour <=? 17)) then
            (d, Ok (Bytes (bad_request "Invalid hour parameter")))
          else if 18 <? hour + duration then
            (d, Ok (Bytes (bad_request "Invalid duration parameter")))
          else if negb (room_exists d room_name) then
            (d, Ok (Bytes (bad_request "Room does not exist")))
          else
            match for_each (range duration)
                           (reserve_body room_name day hour duration) d with
            | (d', Some resp) => (d', Ok (Bytes resp))
            | (d', None) => (d', Ok PyNone)
            end
      end end end
  end.

(** A query that carries the four parameters of a reserve request, with the
    integers [get_reserve] reads from them. *)
Definition reserve_query (q : gmap string string) (name : string)
    (day hour duration : Z) : Prop :=
  exists ds hs ns,
    q !! "name" = Some name /\ q !! "day" = Some ds /\ q !! "hour" = Some hs
    /\ q !! "duration" = Some ns
    /\ int ds = Some day /\ int hs = Some hour /\ int ns = Some duration.

(** A query that carries the two parameters of an availability request. *)
Definition availability_query (q : gmap string string) (name : string)
    (day : Z) : Prop :=
  exists ds,
    q !! "name" = Some name /\ q !! "day" = Some ds /\ int ds = Some day.

(** The loop of [get_check_availability]: [availability.remove(hour)] per
    fetched row, a ValueError being passed over. *)
Definition remove_reserved (reserved : list Z) (availability : list Z) : list Z :=
  fold_left (fun avail hour => default avail (list_remove hour avail))
            reserved availability.

Definition availability (d : db) (room_name : string) (day : Z) : list Z :=
  remove_reserved (hours_of d room_name day) (range2 9 18).

Definition availability_response (avail : list Z) : string :=
  response "200 OK" "Availability"
           ("The following hours are available: "
            +:+ String.concat ",  " (map str avail)).

Definition get_check_availability (query : gmap string string) (d : db)
  : db * res pyret :=
  match check_parameters ["name"; "day"] query with
  | Some parameters_check => (d, Ok (Bytes parameters_check))
  | None =>
      let room_name := item query "name" in
      match int (item query "day") with
      | None => (d, Raise ValueError)
      | Some day =>
          if negb (room_exists d room_name) then
            (d, Ok (Bytes (bad_request "Room Does not exist")))
          else if negb ((1 <=? day) && (day <=? 7)) then
            (d, Ok (Bytes (bad_request "Invalid day paramater")))
          else
            (d, Ok (Bytes (availability_response (availability d room_name day))))
      end
  end.

(** The number of rows of [reservations] that claim a room-hour. *)
Definition occupants (d : db) (name : string) (day hour : Z) : nat :=
  length (List.filter
            (fun r => match r with
                      | (n, dy, h) => String.eqb n name && (dy =? day) && (h =? hour)
                      end)
            (reservations d)).

(** [RoomServer.handle_request] *)
Definition handle_request (request : string) (d : db) : db * res pyret :=
  match parse_request accepted_sub_urls request with
  | Raise e => (d, Raise e)
  | Ok (sub_url, query) =>
      if String.eqb sub_url "/add" then with_query query get_add d
      else if String.eqb sub_url "/remove" then with_query query get_remove d
      else if String.eqb sub_url "/reserve" then with_query query get_reserve d
      else if String.eqb sub_url "/checkavailability" then
        with_query query get_check_availability d
      else (d, Ok (Bytes invalid_url))
  end.

(** Tables in which no room is registered twice and every reservation row
    lies on a day of the week and within the bookable hours. *)
Definition well_formed (d : db) : Prop :=
  List.NoDup (rooms d)
  /\ Forall (fun r => match r with
                       | (_, dy, h) => 1 <= dy <= 7 /\ 9 <= h <= 17
                       end)
            (reservations d).

(** The tables after the server has handled a sequence of requests. *)
Definition run (requests : list string) (d : db) : db :=
  fold_left (fun acc request => fst (handle_request request acc)) requests d.

End RoomServer.

(** ** activity_server.py *)

Module ActivityServer.

Definition accepted_sub_urls : list string := ["/add"; "/remove"; "/check"].

(** [activity.db]: table [activities (name PRIMARY KEY)]. *)
Definition db : Type := list string.

Definition activity_exists (d : db) (name : string) : bool :=
  existsb (String.eqb name) d.

Definition get_add (query : gmap string string) (d : db) : db * res pyret :=
  match check_parameters ["name"] query with
  | Some parameters_check => (d, Ok (Bytes parameters_check))
  | None =>
      let activity_name := item query "name" in
      if activity_exists d activity_name then
        (d, Ok (Bytes (response "403 Forbidden" "Error" "Activity already exists")))
      else
        (d ++ [activity_name],
         Ok (Bytes (response "200 OK" "Activity Added"
                      ("Activity with name " +:+ activity_name +:+ " is added"))))
  end.

Definition get_remove (query : gmap string string) (d : db) : db * res pyret :=
  match check_parameters ["name"] query with
  | Some parameters_check => (d, Ok (Bytes parameters_check))
  | None =>
      let activity_name := item query "name" in
      if negb (activity_exists d activity_name) then
        (d, Ok (Bytes (response "403 Forbidden" "Error"
                         ("Activity with name " +:+ activity_name
                          +:+ " does not exist"))))
      else
        (List.filter (fun n => negb (String.eqb n activity_name)) d,
         Ok (Bytes (response "200 OK" "Activity Removed"
                      ("Activity with name " +:+ activity_name +:+ " is removed"))))
  end.

Definition activity_found : string :=
  response "200 OK" "Activity Check" "Activity Exists".

Definition activity_not_found : string :=
  response "404 Not Found" "Activity Check" "Activity does not exist".

Definition get_check (query : gmap string string) (d : db) : db * res pyret :=
  match check_parameters ["name"] query with
  | Some parameters_check => (d, Ok (Bytes parameters_check))
  | None =>
      let activity_name := item query "name" in
      if activity_exists d activity_name then (d, Ok (Bytes activity_found))
      else (d, Ok (Bytes activity_not_found))
  end.

(** [ActivityServer.handle_request] *)
Definition handle_request (request : string) (d : db) : db * res pyret :=
  match parse_request accepted_sub_urls request with
  | Raise e => (d, Raise e)
  | Ok (sub_url, query) =>
      if String.eqb sub_url "/add" then with_query query get_add d
      else if String.eqb sub_url "/remove" then with_query query get_remove d
      else if String.eqb sub_url "/check" then with_query query get_check d
      else (d, Ok (Bytes invalid_url))
  end.

End ActivityServer.

(** ** What SQLite does with the coordinator's values

    The coordinator binds the texts taken from the query to the columns
    [day], [hour] and [duration], declared INTEGER, and compares the text of
    [id] with the INTEGER PRIMARY KEY. SQLite then applies the column's
    affinity: a text that is a well-formed integer literal fitting 64 bits is
    stored (compared) as that integer. The model is exact for those literals
    and for texts that are no numeric literal at all; a numeric literal that
    SQLite would store as REAL (a fraction, an exponent, or more than 64 bits)
    is kept as text here. *)

Module Sqlite.

Inductive value : Type :=
  | SqlInt (z : Z)
  | SqlText (s : string).

Definition is_space (c : Ascii.ascii) : bool :=
  let n := Ascii.nat_of_ascii c in
  ((n =? 32) || ((9 <=? n) && (n <=? 13)))%nat.

Definition digits (s : string) : option Z :=
  option_map Z.of_uint (NilZero.uint_of_string s).

Definition integer_literal (s : string) : option Z :=
  match rstrip is_space (lstrip is_space s) with
  | String c t =>
      if Ascii.eqb c "-"%char then option_map Z.opp (digits t)
      else if Ascii.eqb c "+"%char then digits t
      else digits (String c t)
  | EmptyString => None
  end.

Definition integer_affinity (s : string) : value :=
  match integer_literal s with
  | Some z =>
      if (- 2 ^ 63 <=? z) && (z <? 2 ^ 63) then SqlInt z else SqlText s
  | None => SqlText s
  end.

End Sqlite.

Import Sqlite.

(** ** reservation_server.py *)

Module ReservationServer.

Definition accepted_sub_urls : list string :=
  ["/reserve"; "/listavailability"; "/display"].

Definition day_names : list string :=
  ["Monday"; "Tuesday"; "Wednesday"; "Thursday"; "Friday"; "Saturday"; "Sunday"].

(** A row of [reservations (id, room, activity, day, hour, duration)]. The
    [id] is the rowid SQLite assigns; rows are only ever appended, so the row
    at position [i] of the table has id [i + 1]. *)
Record reservation : Type := Reservation {
  room : string;
  activity : string;
  day : value;
  hour : value;
  duration : value
}.

Definition db : Type := list reservation.

(** [SELECT * FROM reservations WHERE id=?] with the text of the query bound
    to [?], followed by [fetchone()]. *)
Definition select_by_id (d : db) (reservation_id : string) : option reservation :=
  match integer_affinity reservation_id with
  | SqlInt k => if 1 <=? k then nth_error d (Z.to_nat (k - 1)) else None
  | SqlText _ => None
  end.

(** A text of the query that stands for the integer [z], both for the
    room server, which reads it with [int()], and for SQLite, which stores
    it in an INTEGER column. *)
Definition denotes (text : string) (z : Z) : Prop :=
  int text = Some z /\ integer_affinity text = SqlInt z.

(** The name of day [day] of the week, 1 being Monday. *)
Definition weekday (day : Z) : string :=
  nth (Z.to_nat (day - 1)) day_names EmptyString.

(** Python's [-], [+] and f-string rendering on what sqlite3 hands back. *)
Definition py_sub (v : value) (n : Z) : res Z :=
  match v with
  | SqlInt z => Ok (z - n)
  | SqlText _ => Raise TypeError
  end.

Definition py_add (a b : value) : res value :=
  match a, b with
  | SqlInt x, SqlInt y => Ok (SqlInt (x + y))
  | SqlText s, SqlText t => Ok (SqlText (s +:+ t))
  | _, _ => Raise TypeError
  end.

Definition fmt (v : value) : string :=
  match v with
  | SqlInt z => str z
  | SqlText s => s
  end.

(** [re.search] of the BODY pattern, group 1: after the leftmost opening
    tag that has a match, the longest run without a line break that is
    followed by the closing tag. *)
Fixpoint greedy_until_close (line : string) : option string :=
  match line with
  | EmptyString => None
  | String c rest =>
      match (if Ascii.eqb c (Ascii.ascii_of_nat 10) then None
             else greedy_until_close rest) with
      | Some t => Some (String c t)
      | None => if String.prefix "</BODY>" line then Some EmptyString else None
      end
  end.

Fixpoint drop (n : nat) (s : string) : string :=
  match n, s with
  | S n', String _ s' => drop n' s'
  | _, _ => s
  end.

Fixpoint search_body (text : string) : option string :=
  match text with
  | EmptyString => None
  | String _ text' =>
      if String.prefix "<BODY>" text then
        match greedy_until_close (drop 6 text) with
        | Some body => Some body
        | None => search_body text'
        end
      else search_body text'
  end.

Definition check_request (activity_name : string) : string :=
  "GET /check?name=" +:+ activity_name +:+ " HTTP/1.1" +:+ LF +:+ LF.

Definition reserve_request (room_name day hour duration : string) : string :=
  "GET /reserve?name=" +:+ room_name +:+ "&day=" +:+ day +:+ "&hour=" +:+ hour
  +:+ "&duration=" +:+ duration +:+ " HTTP/1.1" +:+ LF +:+ LF.

Definition checkavailability_request (room_name : string) (day : Z) : string :=
  "GET /checkavailability?name=" +:+ room_name +:+ "&day=" +:+ str day
  +:+ " HTTP/1.1" +:+ LF +:+ LF.

Definition reservation_succesfull (reservation_id : Z) : string :=
  response "200 Bad Request" "Reservation Succesfull"
           ("Reservation ID: " +:+ str reservation_id).

Definition reservation_details (room_name activity_name day_name : string)
    (hour until duration : string) : string :=
  LF +:+ "        <h1>Reservation Details</h1>" +:+ LF
  +:+ "        <p>Room name: " +:+ room_name +:+ "</p>" +:+ LF
  +:+ "        <p>Activity name: " +:+ activity_name +:+ "</p>" +:+ LF
  +:+ "        <p>Day: " +:+ day_name +:+ "</p>" +:+ LF
  +:+ "        <p>Time: " +:+ hour +:+ ":00 - " +:+ until +:+ ":00</p>" +:+ LF
  +:+ "        <p>Duration: " +:+ duration +:+ " hours</p>" +:+ LF
  +:+ "        ".

Section Coordinator.

(** The world outside the coordinator, and the two round trips the
    coordinator makes into it: open a connection, [sendall] the request,
    [recv(1024)] the answer. *)
Context {W : Type}.
Variable activity_server : string -> W -> W * string.
Variable room_server : string -> W -> W * string.

Definition get_reserve (query : gmap string string) (st : db * W)
  : (db * W) * res pyret :=
  let '(d, w) := st in
  match check_parameters ["activity"; "room"; "day"; "hour"; "duration"] query with
  | Some parameters_check => (st, Ok (Bytes parameters_check))
  | None =>
      let activity_name := item query "activity" in
      let '(w1, activity_server_response) :=
        activity_server (check_request activity_name) w in
      if str_in "404 Not Found" activity_server_response then
        ((d, w1), Ok (Bytes activity_server_response))
      else
        let room_name := item query "room" in
        let day := item query "day" in
        let hour := item query "hour" in
        let duration := item query "duration" in
        let '(w2, room_server_response) :=
          room_server (reserve_request room_name day hour duration) w1 in
        if str_in "400 Bad Request" room_server_response
           || str_in "403 Forbidden" room_server_response then
          ((d, w2), Ok (Bytes room_server_response))
        else
          let d' := d ++ [Reservation room_name activity_name
                            (integer_affinity day) (integer_affinity hour)
                            (integer_affinity duration)] in
          let reservation_id := Z.of_nat (length d') in
          ((d', w2), Ok (Bytes (reservation_succesfull reservation_id)))
  end.

(** The list [request_strings]: each request with the label of its day. *)
Definition request_for (room_name : string) (day : Z) : res (string * string) :=
  name ← getitem day_names (day - 1);
  Ok (checkavailability_request room_name day, name).

Fixpoint requests_for (room_name : string) (days : list Z)
  : res (list (string * string)) :=
  match days with
  | [] => Ok []
  | i :: rest =>
      r ← request_for room_name i;
      rs ← requests_for room_name rest;
      Ok (r :: rs)
  end.

(** The body of the loop over [request_strings]; the loop state is the
    world and [response_string]. *)
Definition listavailability_body (rq : string * string) (s : W * string)
  : (W * string) * option (res pyret) :=
  let '(request_string, day) := rq in
  let '(w, response_string) := s in
  let '(w', room_server_response) := room_server request_string w in
  if str_in "404 Not Found" room_server_response
     || str_in "400 Bad Request" room_server_response then
    ((w', response_string), Some (Ok (Bytes room_server_response)))
  else
    match search_body room_server_response with
    | None => ((w', response_string), Some (Raise AttributeError))
    | Some body =>
        ((w', response_string +:+ "For " +:+ day +:+ ": " +:+ body
              +:+ "<br></br>"), None)
    end.

Definition get_listavailability (query : gmap string string) (st : db * W)
  : (db * W) * res pyret :=
  let '(d, w) := st in
  match check_parameters ["room"] query with
  | Some parameters_check => (st, Ok (Bytes parameters_check))
  | None =>
      let room_name := item query "room" in
      let request_strings :=
        match query !! "day" with
        | Some day_text =>
            match int day_text with
            | Some day => r ← request_for room_name day; Ok [r]
            | None => Raise ValueError
            end
        | None => requests_for room_name (range2 1 8)
        end in
      match request_strings with
      | Raise e => (st, Raise e)
      | Ok request_strings =>
          match for_each request_strings listavailability_body
                         (w, EmptyString) with
          | ((w', _), Some r) => ((d, w'), r)
          | ((w', response_string), None) =>
              ((d, w'),
               Ok (Bytes (response "200 OK" "Availabilities" response_string)))
          end
      end
  end.

Definition not_found : string := "HTTP/1.1 404 Not Found".

Definition get_display (query : gmap string string) (st : db * W)
  : (db * W) * res pyret :=
  let '(d, w) := st in
  match check_parameters ["id"] query with
  | Some parameters_check => (st, Ok (Bytes parameters_check))
  | None =>
      let reservation_id := item query "id" in
      match select_by_id d reservation_id with
      | None => (st, Ok (Bytes not_found))
      | Some reservation =>
          let page : res pyret :=
            i ← py_sub (day reservation) 1;
            day_name ← getitem day_names i;
            until ← py_add (hour reservation) (duration reservation);
            Ok (Bytes (response "200 OK" "Reservation Info"
                         (reservation_details (room reservation)
                            (activity reservation) day_name
                            (fmt (hour reservation)) (fmt until)
                            (fmt (duration reservation))))) in
          (st, page)
      end
  end.

(** [ReservationServer.handle_request] *)
Definition handle_request (request : string) (st : db * W)
  : (db * W) * res pyret :=
  match parse_request accepted_sub_urls request with
  | Raise e => (st, Raise e)
  | Ok (sub_url, query) =>
      if String.eqb sub_url "/reserve" then with_query query get_reserve st
      else if String.eqb sub_url "/listavailability" then
        with_query query get_listavailability st
      else if String.eqb sub_url "/display" then with_query query get_display st
      else (st, Ok (Bytes invalid_url))
  end.

End Coordinator.

End ReservationServer.

(** ** main.py: the three servers side by side

    Each server loop takes one connection at a time: [recv(1024)], the class's
    [handle_request], [sendall], and [close] in the [finally] clause. *)

Module Main.

Fixpoint take (n : nat) (s : string) : string :=
  match n, s with
  | S n', String c s' => String c (take n' s')
  | _, _ => EmptyString
  end.

(** [connection.recv(1024)] on a connection over which [sent] was written. *)
Definition recv (sent : string) : string := take 1024 sent.

(** The module-level [handle_request(server, connection)], seen from the
    peer: the bytes written back before the connection is closed. A handler
    that raised wrote nothing, and so did one that returned [None], on which
    [sendall] raises TypeError. *)
Definition handle_request {S} (server : string -> S -> S * res pyret)
    (sent : string) (s : S) : S * string :=
  match server (recv sent) s with
  | (s', Ok (Bytes response)) => (s', response)
  | (s', Ok PyNone) => (s', EmptyString)
  | (s', Raise _) => (s', EmptyString)
  end.

(** The room server and the activity server, each with the log of the
    requests it has been sent. *)
Record world : Type := World {
  room_db : RoomServer.db;
  room_log : list string;
  activity_db : ActivityServer.db;
  activity_log : list string
}.

(** One round trip of the coordinator to the activity server. *)
Definition activity_server (request : string) (w : world) : world * string :=
  let '(a', response) :=
    handle_request ActivityServer.handle_request request (activity_db w) in
  (World (room_db w) (room_log w) a' (activity_log w ++ [request]),
   recv response).

(** One round trip of the coordinator to the room server. *)
Definition room_server (request : string) (w : world) : world * string :=
  let '(r', response) :=
    handle_request RoomServer.handle_request request (room_db w) in
  (World r' (room_log w ++ [request]) (activity_db w) (activity_log w),
   recv response).

(** The reservation server wired to the other two. *)
Definition reservation_server (request : string)
    (st : ReservationServer.db * world)
  : (ReservationServer.db * world) * res pyret :=
  ReservationServer.handle_request activity_server room_server request st.

Definition get_reserve :=
  ReservationServer.get_reserve activity_server room_server.
Definition get_listavailability :=
  ReservationServer.get_listavailability (W := world) room_server.
Definition get_display :=
  ReservationServer.get_display (W := world).

(** [start_server]: the [while True] loop over accepted connections. It has
    no [except] clause, so the first handler that raises, or that returns
    [None] and makes [sendall] raise, ends the loop; the connections that
    follow are not served. The result is the final state and the answers
    written, in order, the last one empty when the loop ended that way. *)
Fixpoint start_server {S} (server : string -> S -> S * res pyret)
    (connections : list string) (s : S) : S * list string :=
  match connections with
  | [] => (s, [])
  | sent :: rest =>
      match server (recv sent) s with
      | (s', Ok (Bytes response)) =>
          let '(s'', answers) := start_server server rest s' in
          (s'', response :: answers)
      | (s', Ok PyNone) => (s', [EmptyString])
      | (s', Raise _) => (s', [EmptyString])
      end
  end.

(** What [get_check_availability] answers for a room name and a day. *)
Definition availability_reply (rdb : RoomServer.db) (r : string) (day : Z)
  : string :=
  if negb (RoomServer.room_exists rdb r) then bad_request "Room Does not exist"
  else if negb ((1 <=? day) && (day <=? 7)) then
    bad_request "Invalid day paramater"
  else RoomServer.availability_response (RoomServer.availability rdb r day).

(** The line [get_listavailability] adds for one day. *)
Definition day_line (rdb : RoomServer.db) (r : string) (day : Z) : string :=
  "For " +:+ ReservationServer.weekday day +:+ ": "
  +:+ "The following hours are available: "
  +:+ String.concat ",  " (map str (RoomServer.availability rdb r day))
  +:+ "<br></br>".

End Main.


(** * Properties *)

(** Let [simpl] compute appends on literal prefixes. *)
Local Arguments String.append !_ _ / : simpl nomatch.

(** Closes a goal whose premise equates two responses of different text. *)
Ltac wrong_response :=
  let H := fresh "H" in
  intros H; apply (f_equal snd) in H; vm_compute in H; discriminate H.

(** ** Worked requests *)

Example split_eq : split "="%char "day=3" = ["day"; "3"].
Proof. reflexivity. Qed.

Example int_examples :
  int "17" = Some 17 /\ int "-3" = Some (-3) /\ int " +1_0 " = Some 10
  /\ int "1__0" = None /\ int "abc" = None /\ int "_1" = None /\ int "1_" = None
  /\ int "-" = None /\ int "007" = Some 7.
Proof. repeat split; reflexivity. Qed.

Example str_examples : str 0 = "0" /\ str 18 = "18" /\ str (-4) = "-4".
Proof. repeat split; reflexivity. Qed.

Example room_scenario :
  let d1 := fst (RoomServer.handle_request "GET /add?name=A101 HTTP/1.1" RoomServer.empty) in
  let d2 := fst (RoomServer.handle_request
                   "GET /reserve?name=A101&day=2&hour=10&duration=2 HTTP/1.1" d1) in
  RoomServer.availability d2 "A101" 2 = [9; 12; 13; 14; 15; 16; 17]
  /\ snd (RoomServer.handle_request "GET /reserve?name=A101&day=7&hour=17&duration=2 HTTP/1.1" d2)
     = Ok (Bytes (bad_request "Invalid duration parameter"))
  /\ fst (RoomServer.handle_request "GET /reserve?name=A101&day=7&hour=17&duration=1 HTTP/1.1" d2)
     = RoomServer.Db ["A101"] [("A101", 2, 10); ("A101", 2, 11); ("A101", 7, 17)].
Proof. vm_compute. repeat split; reflexivity. Qed.

Example integer_affinity_examples :
  integer_affinity "12" = SqlInt 12 /\ integer_affinity "-3" = SqlInt (-3)
  /\ integer_affinity "1_0" = SqlText "1_0" /\ integer_affinity "abc" = SqlText "abc"
  /\ integer_affinity "9223372036854775808" = SqlText "9223372036854775808".
Proof. repeat split; reflexivity. Qed.

Example coordinator_scenario :
  let w0 := Main.World RoomServer.empty [] [] [] in
  let w1 := fst (Main.room_server "GET /add?name=A101 HTTP/1.1" w0) in
  let w2 := fst (Main.activity_server "GET /add?name=Yoga HTTP/1.1" w1) in
  let '(st3, r3) := Main.reservation_server
      "GET /reserve?activity=Yoga&room=A101&day=2&hour=10&duration=2 HTTP/1.1"
      ([], w2) in
  let '(st4, r4) := Main.reservation_server
      "GET /listavailability?room=A101&day=2 HTTP/1.1" st3 in
  let '(st5, r5) := Main.reservation_server "GET /display?id=1 HTTP/1.1" st4 in
  r3 = Ok (Bytes (ReservationServer.reservation_succesfull 1))
  /\ r4 = Ok (Bytes (response "200 OK" "Availabilities"
       "For Tuesday: The following hours are available: 9,  12,  13,  14,  15,  16,  17<br></br>"))
  /\ r5 = Ok (Bytes (response "200 OK" "Reservation Info"
       (ReservationServer.reservation_details "A101" "Yoga" "Tuesday" "10" "12" "2"))).
Proof. vm_compute. repeat split; reflexivity. Qed.

(** ** The room server *)

Section RoomFacts.

Import RoomServer.

Lemma between_true (a x b : Z) : a <= x <= b -> (a <=? x) && (x <=? b) = true.
Proof. intros [H1 H2]. apply andb_true_intro. split; apply Z.leb_le; lia. Qed.

Lemma range_nonpos (n : Z) : n <= 0 -> range n = [].
Proof.
  intros H. unfold range, range2. replace (Z.to_nat (n - 0)) with O by lia.
  reflexivity.
Qed.

Lemma range_pos (n : Z) : 1 <= n -> exists rest, range n = 0 :: rest.
Proof.
  intros H. unfold range, range2.
  destruct (Z.to_nat (n - 0)) as [|k] eqn:E; [lia|].
  simpl. eexists. reflexivity.
Qed.

Lemma get_reserve_parsed q name day hour duration d :
  reserve_query q name day hour duration ->
  get_reserve q d =
    if negb ((1 <=? day) && (day <=? 7)) then
      (d, Ok (Bytes (bad_request "Invalid day parameter")))
    else if negb ((9 <=? hour) && (hour <=? 17)) then
      (d, Ok (Bytes (bad_request "Invalid hour parameter")))
    else if 18 <? hour + duration then
      (d, Ok (Bytes (bad_request "Invalid duration parameter")))
    else if negb (room_exists d name) then
      (d, Ok (Bytes (bad_request "Room does not exist")))
    else
      match for_each (range duration) (reserve_body name day hour duration) d with
      | (d', Some resp) => (d', Ok (Bytes resp))
      | (d', None) => (d', Ok PyNone)
      end.
Proof.
  intros (ds & hs & ns & Hn & Hd & Hh & Hu & Id & Ih & Iu).
  unfold get_reserve, item. simpl check_parameters.
  rewrite Hn, Hd, Hh, Hu. simpl. rewrite Id, Ih, Iu. reflexivity.
Qed.

(** With valid parameters and a duration of at least one hour the loop body
    runs once: it looks at the first hour only. *)
Lemma get_reserve_valid q name day hour duration d :
  reserve_query q name day hour duration ->
  1 <= day <= 7 -> 9 <= hour <= 17 -> hour + duration <= 18 -> 1 <= duration ->
  room_exists d name = true ->
  get_reserve q d =
    if slot_taken d name day hour then (d, Ok (Bytes (reserved_at hour)))
    else (insert_hours name day hour duration d,
          Ok (Bytes (reservation_successful name))).
Proof.
  intros Hq Hd Hh Hu Hn Hr.
  rewrite (get_reserve_parsed _ _ _ _ _ _ Hq).
  rewrite (between_true _ _ _ Hd), (between_true _ _ _ Hh), Hr. simpl.
  replace (18 <? hour + duration) with false by (symmetry; apply Z.ltb_ge; lia).
  destruct (range_pos duration Hn) as [rest ->]. simpl.
  unfold reserve_body. rewrite Z.add_0_r.
  destruct (slot_taken d name day hour); reflexivity.
Qed.





(** C4. Whenever [get_reserve] answers 403 Forbidden, the tables after the
    call are the tables before it: no requested hour has become occupied. *)
Theorem reserve_conflict_changes_nothing q d d' resp :
  get_reserve q d = (d', Ok (Bytes resp)) ->
  is_forbidden resp = true ->
  d' = d.
Proof.
  unfold get_reserve.
  destruct (check_parameters _ q); [intros [= <- <-]; reflexivity|].
  destruct (int (item q "day")) as [day|]; [|discriminate].
  destruct (int (item q "hour")) as [hour|]; [|discriminate].
  destruct (int (item q "duration")) as [duration|]; [|discriminate].
  destruct (negb _); [intros [= <- <-]; reflexivity|].
  destruct (negb _); [intros [= <- <-]; reflexivity|].
  destruct (_ <? _); [intros [= <- <-]; reflexivity|].
  destruct (negb _); [intros [= <- <-]; reflexivity|].
  destruct (range duration) as [|i rest]; simpl; [discriminate|].
  unfold reserve_body.
  destruct (slot_taken _ _ _ _); intros [= <- <-]; [reflexivity|].
  intros H. discriminate H.
Qed.

(** A reserve from 10 on a day where 10 is taken. *)
Lemma reserve_conflict_witness :
  let q : gmap string string :=
    {[ "name" := "A101"; "day" := "1"; "hour" := "10"; "duration" := "2" ]} in
  let d := Db ["A101"] [("A101", 1, 10)] in
  is_forbidden (reserved_at 10) = true /\ fst (get_reserve q d) = d.
Proof.
  intros q d. split; [reflexivity|].
  apply (reserve_conflict_changes_nothing q d (fst (get_reserve q d))
           (reserved_at 10)).
  - vm_compute. reflexivity.
  - reflexivity.
Defined.

(** C1. The room is taken at 10 on day 1; a reserve of two hours from 9
    finds hour 9 free, never looks at hour 10, answers 200 and inserts both
    hours: the conflict on the second hour is not reported. *)
Theorem reserve_checks_first_hour_only :
  let d := Db ["A101"] [("A101", 1, 10)] in
  slot_taken d "A101" 1 10 = true
  /\ handle_request "GET /reserve?name=A101&day=1&hour=9&duration=2 HTTP/1.1" d
     = (Db ["A101"] [("A101", 1, 10); ("A101", 1, 9); ("A101", 1, 10)],
        Ok (Bytes (reservation_successful "A101"))).
Proof. vm_compute. split; reflexivity. Qed.

(** C2. Three requests accepted in a row leave two rows that claim the same
    room, day and hour. *)
Theorem slot_claimed_twice :
  let requests :=
    ["GET /add?name=A101 HTTP/1.1";
     "GET /reserve?name=A101&day=1&hour=10&duration=1 HTTP/1.1";
     "GET /reserve?name=A101&day=1&hour=9&duration=2 HTTP/1.1"] in
  let d1 := run (firstn 1 requests) empty in
  let d2 := run (firstn 2 requests) empty in
  snd (handle_request "GET /reserve?name=A101&day=1&hour=10&duration=1 HTTP/1.1" d1)
    = Ok (Bytes (reservation_successful "A101"))
  /\ snd (handle_request "GET /reserve?name=A101&day=1&hour=9&duration=2 HTTP/1.1" d2)
    = Ok (Bytes (reservation_successful "A101"))
  /\ occupants (run requests empty) "A101" 1 10 = 2%nat.
Proof. vm_compute. repeat split; reflexivity. Qed.




(** *** Free hours *)

Lemma filter_all_true {A} (f : A -> bool) (l : list A) :
  (forall x, In x l -> f x = true) -> List.filter f l = l.
Proof.
  induction l as [|a l IH]; intros H; simpl; [reflexivity|].
  rewrite (H a (or_introl eq_refl)). f_equal. apply IH.
  intros x Hx. apply H. right. exact Hx.
Qed.

Lemma filter_twice {A} (f g : A -> bool) (l : list A) :
  List.filter f (List.filter g l) = List.filter (fun x => g x && f x) l.
Proof.
  induction l as [|a l IH]; simpl; [reflexivity|].
  destruct (g a); simpl; [destruct (f a)|]; rewrite IH; reflexivity.
Qed.

Lemma filter_same {A} (f g : A -> bool) (l : list A) :
  (forall x, f x = g x) -> List.filter f l = List.filter g l.
Proof.
  intros H. induction l as [|a l IH]; simpl; [reflexivity|].
  rewrite H, IH. reflexivity.
Qed.

Lemma list_remove_filter (x : Z) (l : list Z) :
  List.NoDup l ->
  default l (list_remove x l) = List.filter (fun y => negb (y =? x)) l.
Proof.
  induction l as [|y l IH]; intros Hnd; simpl; [reflexivity|].
  inversion Hnd as [|? ? Hy Hl]; subst.
  destruct (Z.eqb_spec y x) as [->|Hne]; simpl.
  - symmetry. apply filter_all_true. intros z Hz.
    apply negb_true_iff, Z.eqb_neq. intros ->. contradiction.
  - specialize (IH Hl). destruct (list_remove x l) as [r|]; simpl in *;
      rewrite <- IH; reflexivity.
Qed.

Lemma remove_reserved_filter (reserved avail : list Z) :
  List.NoDup avail ->
  remove_reserved reserved avail
  = List.filter (fun y => negb (existsb (Z.eqb y) reserved)) avail.
Proof.
  unfold remove_reserved. revert avail.
  induction reserved as [|h rs IH]; intros avail Hnd; simpl.
  - symmetry. apply filter_all_true. reflexivity.
  - rewrite (list_remove_filter h avail Hnd).
    rewrite IH by (apply List.NoDup_filter; exact Hnd).
    rewrite filter_twice. apply filter_same. intros x.
    rewrite negb_orb. reflexivity.
Qed.

Lemma hours_of_taken d name day x :
  existsb (Z.eqb x) (hours_of d name day) = slot_taken d name day x.
Proof.
  unfold hours_of, slot_taken.
  induction (reservations d) as [|[[n dy] h] l IH]; simpl; [reflexivity|].
  destruct (String.eqb n name && (dy =? day)); simpl.
  - rewrite IH, (Z.eqb_sym x h). reflexivity.
  - exact IH.
Qed.

Lemma hours_9_17 : range2 9 18 = [9; 10; 11; 12; 13; 14; 15; 16; 17].
Proof. reflexivity. Qed.

(** The list built by [get_check_availability] is [range(9, 18)] without the
    hours that have a row. *)
Lemma availability_filter d name day :
  availability d name day
  = List.filter (fun h => negb (slot_taken d name day h)) (range2 9 18).
Proof.
  unfold availability. rewrite remove_reserved_filter.
  - apply filter_same. intros x. rewrite hours_of_taken. reflexivity.
  - rewrite hours_9_17. repeat constructor; simpl; intuition lia.
Qed.

Lemma filter_sorted (f : Z -> bool) (l : list Z) :
  StronglySorted Z.lt l -> StronglySorted Z.lt (List.filter f l).
Proof.
  induction 1 as [|a l Hs IH Ha]; simpl; [constructor|].
  destruct (f a); [|exact IH]. constructor; [exact IH|].
  apply List.Forall_forall. intros x Hx. apply List.filter_In in Hx.
  rewrite List.Forall_forall in Ha. apply Ha. tauto.
Qed.

Lemma insert_hours_rows name day hour duration d :
  insert_hours name day hour duration d
  = Db (rooms d)
       (reservations d ++ map (fun i => (name, day, hour + i)) (range duration)).
Proof.
  unfold insert_hours. revert d.
  induction (range duration) as [|i l IH]; intros d; simpl.
  - rewrite app_nil_r. destruct d; reflexivity.
  - rewrite IH. unfold insert_reservation. simpl.
    rewrite <- app_assoc. reflexivity.
Qed.

Lemma in_range (n x : Z) : In x (range n) <-> 0 <= x < n.
Proof.
  unfold range, range2. rewrite in_map_iff. split.
  - intros (i & <- & Hi). apply in_seq in Hi. lia.
  - intros H. exists (Z.to_nat x). split; [lia|]. apply in_seq. lia.
Qed.

Lemma new_rows_taken name day hour duration x :
  existsb (fun r : string * Z * Z =>
             match r with
             | (n, dy, h) => String.eqb n name && (dy =? day) && (h =? x)
             end)
          (map (fun i => (name, day, hour + i)) (range duration))
  = (hour <=? x) && (x <? hour + duration).
Proof.
  apply eq_true_iff_eq. rewrite existsb_exists, andb_true_iff, Z.leb_le, Z.ltb_lt.
  split.
  - intros ([[n dy] h] & Hin & Hm). apply in_map_iff in Hin.
    destruct Hin as (i & [= <- <- <-] & Hi). apply in_range in Hi.
    apply andb_true_iff in Hm. destruct Hm as [_ Hm]. apply Z.eqb_eq in Hm. lia.
  - intros H. exists (name, day, x). split.
    + apply in_map_iff. exists (x - hour). split; [f_equal; lia|].
      apply in_range. lia.
    + rewrite String.eqb_refl, !Z.eqb_refl. reflexivity.
Qed.

Lemma slot_taken_insert_hours name day hour duration d x :
  slot_taken (insert_hours name day hour duration d) name day x
  = slot_taken d name day x || ((hour <=? x) && (x <? hour + duration)).
Proof.
  rewrite insert_hours_rows. unfold slot_taken. simpl.
  rewrite existsb_app, new_rows_taken. reflexivity.
Qed.

(** What a 200 answer of [get_reserve] means for the tables. *)
Lemma reserve_success_rows q name day hour duration d d' :
  reserve_query q name day hour duration ->
  get_reserve q d = (d', Ok (Bytes (reservation_successful name))) ->
  d' = insert_hours name day hour duration d
  /\ room_exists d name = true /\ slot_taken d name day hour = false
  /\ 1 <= day <= 7 /\ 9 <= hour <= 17 /\ 1 <= duration /\ hour + duration <= 18.
Proof.
  intros Hq. rewrite (get_reserve_parsed _ _ _ _ _ _ Hq).
  destruct ((1 <=? day) && (day <=? 7)) eqn:Ed; simpl;
    [|wrong_response].
  destruct ((9 <=? hour) && (hour <=? 17)) eqn:Eh; simpl;
    [|wrong_response].
  destruct (18 <? hour + duration) eqn:Eu;
    [wrong_response|].
  destruct (room_exists d name) eqn:Er; simpl;
    [|wrong_response].
  apply andb_true_iff in Ed, Eh. rewrite !Z.leb_le in Ed, Eh.
  apply Z.ltb_ge in Eu.
  destruct (Z_le_gt_dec duration 0) as [Hn|Hn].
  - rewrite (range_nonpos _ Hn). simpl. discriminate.
  - destruct (range_pos duration ltac:(lia)) as [rest ->]. simpl.
    unfold reserve_body. rewrite Z.add_0_r.
    destruct (slot_taken d name day hour) eqn:Et.
    + wrong_response.
    + intros [= <-]. repeat split; try reflexivity; lia.
Qed.

Lemma get_check_availability_ok q d name day :
  availability_query q name day -> room_exists d name = true -> 1 <= day <= 7 ->
  get_check_availability q d
  = (d, Ok (Bytes (availability_response (availability d name day)))).
Proof.
  intros (ds & Hn & Hd & Id) Hr Hday.
  unfold get_check_availability, item. simpl. rewrite Hn, Hd. simpl.
  rewrite Id, Hr, (between_true _ _ _ Hday). reflexivity.
Qed.



End RoomFacts.

(** ** Texts on the wire *)

Section WireFacts.

Lemma append_assoc (a b c : string) : (a +:+ b) +:+ c = a +:+ (b +:+ c).
Proof. induction a as [|x a IH]; simpl; [reflexivity|]. rewrite IH. reflexivity. Qed.

Lemma append_nil_r (a : string) : a +:+ EmptyString = a.
Proof. induction a as [|x a IH]; simpl; [reflexivity|]. rewrite IH. reflexivity. Qed.

Lemma length_append (a b : string) :
  String.length (a +:+ b) = (String.length a + String.length b)%nat.
Proof. induction a as [|x a IH]; simpl; [reflexivity|]. rewrite IH. reflexivity. Qed.

Lemma has_char_append c (a b : string) :
  has_char c (a +:+ b) = has_char c a || has_char c b.
Proof.
  induction a as [|x a IH]; simpl; [reflexivity|].
  rewrite IH, orb_assoc. reflexivity.
Qed.

Lemma take_all (n : nat) (s : string) :
  (String.length s <= n)%nat -> Main.take n s = s.
Proof.
  revert n. induction s as [|x s IH]; intros [|n] H; simpl in *;
    try reflexivity; [lia|].
  rewrite IH by lia. reflexivity.
Qed.

Lemma take_append (n : nat) (a b : string) :
  (String.length a <= n)%nat ->
  Main.take n (a +:+ b) = a +:+ Main.take (n - String.length a) b.
Proof.
  revert n. induction a as [|x a IH]; intros n H; simpl in *.
  - rewrite Nat.sub_0_r. reflexivity.
  - destruct n as [|n]; [lia|]. simpl. rewrite IH by lia. reflexivity.
Qed.

Lemma split_nonempty sep (s : string) : split sep s <> [].
Proof.
  destruct s as [|x s]; simpl; [discriminate|].
  destruct (Ascii.eqb x sep); [discriminate|].
  destruct (split sep s); discriminate.
Qed.

(** Cutting a text whose first part has no separator. *)
Lemma split_prefix sep (a b : string) :
  has_char sep a = false ->
  split sep (a +:+ b)
  = match split sep b with
    | w :: ws => (a +:+ w) :: ws
    | [] => [a]
    end.
Proof.
  induction a as [|x a IH]; simpl.
  - intros _. destruct (split sep b) eqn:E; [|reflexivity].
    destruct (split_nonempty _ _ E).
  - intros H. apply orb_false_iff in H. destruct H as [Hx Ha].
    rewrite Hx, (IH Ha). destruct (split sep b); reflexivity.
Qed.

Lemma split_plain sep (a : string) :
  has_char sep a = false -> split sep a = [a].
Proof.
  intros H. rewrite <- (append_nil_r a) at 1.
  rewrite (split_prefix _ _ _ H). simpl. rewrite append_nil_r. reflexivity.
Qed.

Lemma split_cut sep (a b : string) :
  has_char sep a = false ->
  split sep (a +:+ String sep b) = a :: split sep b.
Proof.
  intros H. rewrite (split_prefix _ _ _ H). simpl.
  rewrite Ascii.eqb_refl, append_nil_r. reflexivity.
Qed.

Lemma splitn_cut sep (a b : string) (n : nat) :
  has_char sep a = false ->
  splitn sep (a +:+ String sep b) (S n) = a :: splitn sep b n.
Proof.
  induction a as [|x a IH]; simpl.
  - intros _. rewrite Ascii.eqb_refl. reflexivity.
  - intros H. apply orb_false_iff in H. destruct H as [Hx Ha].
    rewrite Hx. specialize (IH Ha). simpl in IH. rewrite IH. reflexivity.
Qed.

Lemma splitn_zero sep (a : string) : splitn sep a 0 = [a].
Proof. destruct a; reflexivity. Qed.

Lemma splitn_plain sep (a : string) (n : nat) :
  has_char sep a = false -> splitn sep a n = [a].
Proof.
  revert n. induction a as [|x a IH]; intros [|n]; simpl; try reflexivity.
  intros H. apply orb_false_iff in H. destruct H as [Hx Ha].
  rewrite Hx. rewrite (IH (S n) Ha). reflexivity.
Qed.

Lemma plain_spec (s : string) :
  plain s = true ->
  has_char SP s = false /\ has_char "?"%char s = false
  /\ has_char "&"%char s = false /\ has_char "="%char s = false.
Proof.
  unfold plain. rewrite negb_true_iff, !orb_false_iff. tauto.
Qed.

Lemma has_char_param c (kv : string * string) :
  plain_item kv -> c = SP \/ c = "?"%char \/ c = "&"%char ->
  has_char c (param kv) = false.
Proof.
  intros [Hk Hv] Hc. apply plain_spec in Hk, Hv. unfold param.
  rewrite !has_char_append.
  destruct Hc as [->|[->| ->]]; simpl;
    repeat match goal with H : _ /\ _ |- _ => destruct H end;
    repeat match goal with H : has_char _ _ = false |- _ => rewrite H end;
    reflexivity.
Qed.

Lemma has_char_params c (kvs : list (string * string)) :
  Forall plain_item kvs -> c = SP \/ c = "?"%char ->
  has_char c (String.concat "&" (map param kvs)) = false.
Proof.
  intros H Hc. induction H as [|kv l Hkv Hl IH]; [reflexivity|].
  change (map param (kv :: l)) with (param kv :: map param l).
  destruct (map param l) as [|p ps].
  - apply has_char_param; [assumption|tauto].
  - change (String.concat "&" (param kv :: p :: ps))
      with (param kv +:+ "&" +:+ String.concat "&" (p :: ps)).
    rewrite !has_char_append, IH, (has_char_param c kv Hkv) by tauto.
    destruct Hc as [->| ->]; reflexivity.
Qed.

Lemma split_params (kvs : list (string * string)) :
  kvs <> [] -> Forall plain_item kvs ->
  split "&"%char (String.concat "&" (map param kvs)) = map param kvs.
Proof.
  intros Hne H. induction H as [|kv l Hkv Hl IH]; [congruence|]. simpl.
  destruct l as [|kv' l]; simpl.
  - apply split_plain, has_char_param; [assumption|tauto].
  - change ("&" +:+ ?x) with (String "&"%char x).
    rewrite split_cut by (apply has_char_param; [assumption|tauto]).
    f_equal. apply IH. discriminate.
Qed.

Lemma split_param (kv : string * string) :
  plain_item kv -> split "="%char (param kv) = [fst kv; snd kv].
Proof.
  intros [Hk Hv]. apply plain_spec in Hk, Hv. unfold param.
  change ("=" +:+ ?x) with (String "="%char x).
  rewrite split_cut by tauto. rewrite split_plain by tauto. reflexivity.
Qed.

Lemma dict_of_params_built (kvs : list (string * string)) acc :
  Forall plain_item kvs ->
  dict_of_params (map param kvs) acc
  = Ok (fold_left (fun m kv => <[fst kv := snd kv]> m) kvs acc).
Proof.
  intros H. revert acc. induction H as [|kv l Hkv Hl IH]; intros acc; simpl.
  - reflexivity.
  - rewrite (split_param kv Hkv). simpl. apply IH.
Qed.

(** What a server reads from a request the coordinator wrote, when the path
    and the parameters are free of separators and the request line fits the
    1024 bytes of one [recv]. *)
Lemma parse_request_built accepted path (kvs : list (string * string)) :
  existsb (String.eqb path) accepted = true ->
  has_char SP path = false -> has_char "?"%char path = false ->
  kvs <> [] -> Forall plain_item kvs ->
  (String.length path + String.length (String.concat "&" (map param kvs)) + 5
   <= 1024)%nat ->
  parse_request accepted (Main.recv (get_request path kvs))
  = Ok (path, QDict (dict_of kvs)).
Proof.
  intros Hacc Hsp Hq Hne Hkvs Hlen.
  set (qs := String.concat "&" (map param kvs)) in *.
  set (url := path +:+ String "?"%char qs).
  assert (Hurl : has_char SP url = false).
  { unfold url. rewrite has_char_append. simpl.
    unfold qs. rewrite has_char_params, Hsp by tauto. reflexivity. }
  assert (Hreq : exists t, (t = EmptyString \/ exists r, t = String SP r)
            /\ Main.recv (get_request path kvs)
               = "GET" +:+ String SP (url +:+ t)).
  { unfold Main.recv, get_request. fold qs.
    replace ("GET " +:+ path +:+ "?" +:+ qs +:+ " HTTP/1.1" +:+ LF +:+ LF)
      with (("GET " +:+ url) +:+ (" HTTP/1.1" +:+ LF +:+ LF))
      by (unfold url; simpl; rewrite !append_assoc; reflexivity).
    rewrite take_append
      by (rewrite length_append; unfold url; rewrite length_append; simpl; lia).
    exists (Main.take (1024 - String.length ("GET " +:+ url))
                      (" HTTP/1.1" +:+ LF +:+ LF)).
    split.
    - destruct (1024 - String.length ("GET " +:+ url))%nat; simpl;
        [left; reflexivity|right; eexists; reflexivity].
    - simpl. reflexivity. }
  destruct Hreq as (t & Ht & ->).
  unfold parse_request.
  rewrite splitn_cut by reflexivity.
  assert (Hsplit : getitem ("GET" :: splitn SP (url +:+ t) 1) 1 = Ok url).
  { destruct Ht as [->|[r ->]].
    - rewrite append_nil_r, splitn_plain by assumption. reflexivity.
    - rewrite splitn_cut by assumption. rewrite splitn_zero. reflexivity. }
  rewrite Hsplit. simpl.
  unfold url. rewrite split_cut by assumption.
  rewrite split_plain by (unfold qs; apply has_char_params; tauto).
  simpl. rewrite Hacc. simpl.
  unfold qs. rewrite split_params by assumption.
  rewrite dict_of_params_built by assumption. reflexivity.
Qed.

Lemma check_request_built a :
  ReservationServer.check_request a = get_request "/check" [("name", a)].
Proof.
  unfold ReservationServer.check_request, get_request, param.
  repeat (progress (simpl; rewrite ?append_assoc)); reflexivity.
Qed.

Lemma reserve_request_built r dy h n :
  ReservationServer.reserve_request r dy h n
  = get_request "/reserve" [("name", r); ("day", dy); ("hour", h); ("duration", n)].
Proof.
  unfold ReservationServer.reserve_request, get_request, param.
  repeat (progress (simpl; rewrite ?append_assoc)); reflexivity.
Qed.

Lemma checkavailability_request_built r dy :
  ReservationServer.checkavailability_request r dy
  = get_request "/checkavailability" [("name", r); ("day", str dy)].
Proof.
  unfold ReservationServer.checkavailability_request, get_request, param.
  repeat (progress (simpl; rewrite ?append_assoc)); reflexivity.
Qed.

(** *** What [parse_request] can hand out *)

Lemma split_total sep (s : string) :
  total_len (split sep s) = S (String.length s).
Proof.
  induction s as [|x s IH]; simpl; [reflexivity|].
  destruct (Ascii.eqb x sep); simpl; [rewrite IH; reflexivity|].
  destruct (split sep s) as [|w ws] eqn:E; simpl in *; lia.
Qed.

Lemma splitn_total sep (s : string) (n : nat) :
  total_len (splitn sep s n) = S (String.length s).
Proof.
  revert n. induction s as [|x s IH]; intros [|n]; simpl; try reflexivity;
    try lia.
  destruct (Ascii.eqb x sep); simpl; [rewrite IH; reflexivity|].
  specialize (IH (S n)).
  destruct (splitn sep s (S n)) as [|w ws] eqn:E; simpl in *; lia.
Qed.

Lemma split_keeps_absent c sep (s : string) :
  has_char c s = false -> Forall (fun p => has_char c p = false) (split sep s).
Proof.
  induction s as [|x s IH]; simpl; intros H.
  - repeat constructor.
  - apply orb_false_iff in H. destruct H as [Hx Hs]. specialize (IH Hs).
    destruct (Ascii.eqb x sep).
    + constructor; [reflexivity|exact IH].
    + destruct (split sep s) as [|w ws].
      * repeat constructor. simpl. rewrite Hx. reflexivity.
      * inversion IH; subst. constructor; [|assumption].
        simpl. rewrite Hx. assumption.
Qed.

Lemma split_no_sep sep (s : string) :
  Forall (fun p => has_char sep p = false) (split sep s).
Proof.
  induction s as [|x s IH]; simpl.
  - repeat constructor.
  - destruct (Ascii.eqb x sep) eqn:E.
    + constructor; [reflexivity|exact IH].
    + destruct (split sep s) as [|w ws].
      * repeat constructor. simpl. rewrite E. reflexivity.
      * inversion IH; subst. constructor; [|assumption].
        simpl. rewrite E. assumption.
Qed.

(** The piece between the first and the second blank of a request. *)
Lemma splitn_second sep (s : string) a b rest :
  splitn sep s 2 = a :: b :: rest -> has_char sep b = false.
Proof.
  revert a. induction s as [|x s IH]; intros a; simpl; [discriminate|].
  destruct (Ascii.eqb x sep) eqn:E.
  - intros [= _ H]. clear IH a.
    revert b rest H. induction s as [|y s IH]; intros b rest; simpl.
    + intros [= <- _]. reflexivity.
    + destruct (Ascii.eqb y sep) eqn:E2.
      * intros [= <- _]. reflexivity.
      * destruct (splitn sep s 1) as [|w ws] eqn:E3.
        -- intros [= <- _]. simpl. rewrite E2. reflexivity.
        -- intros [= <- <-]. simpl. rewrite E2. apply (IH w ws). reflexivity.
  - destruct (splitn sep s 2) as [|w ws] eqn:E3; [discriminate|].
    intros [= _ H]. subst ws. apply (IH w). reflexivity.
Qed.

Lemma getitem_0 {A} (l : list A) x :
  getitem l 0 = Ok x -> exists rest, l = x :: rest.
Proof.
  destruct l as [|a l]; unfold getitem; [discriminate|].
  change (if 0 <? 0 then 0 + Z.of_nat (length (a :: l)) else 0) with 0.
  destruct (0 <? Z.of_nat (length (a :: l))) eqn:E.
  - simpl. intros [= ->]. eexists. reflexivity.
  - apply Z.ltb_ge in E. simpl length in E. lia.
Qed.

Lemma getitem_1 {A} (l : list A) x :
  getitem l 1 = Ok x -> exists a rest, l = a :: x :: rest.
Proof.
  unfold getitem.
  change (if 1 <? 0 then 1 + Z.of_nat (length l) else 1) with 1.
  destruct (1 <? Z.of_nat (length l)) eqn:E; [|discriminate].
  apply Z.ltb_lt in E.
  destruct l as [|a [|b l]]; simpl in E; try lia.
  simpl. intros [= ->]. do 2 eexists. reflexivity.
Qed.

Lemma weight_step_comm (j1 j2 z1 z2 : string) (y : nat) :
  (String.length j1 + String.length z1 + 2
   + (String.length j2 + String.length z2 + 2 + y))%nat
  = (String.length j2 + String.length z2 + 2
     + (String.length j1 + String.length z1 + 2 + y))%nat.
Proof. lia. Qed.

Lemma weight_lookup (q : gmap string string) k v :
  q !! k = Some v ->
  weight q = (String.length k + String.length v + 2 + weight (delete k q))%nat.
Proof.
  intros H. unfold weight.
  apply (map_fold_delete_L
           (fun k v n => (String.length k + String.length v + 2 + n)%nat));
    [|exact H].
  intros. apply weight_step_comm.
Qed.

Lemma weight_insert (q : gmap string string) k v :
  (weight (<[k := v]> q) <= weight q + String.length k + String.length v + 2)%nat.
Proof.
  rewrite (weight_lookup (<[k := v]> q) k v) by apply lookup_insert_eq.
  rewrite delete_insert_eq.
  destruct (q !! k) as [v0|] eqn:E.
  - rewrite (weight_lookup q k v0 E). lia.
  - rewrite delete_id by exact E. lia.
Qed.

(** The values of the parsed dict are free of the separators that the
    request, the URL and the query string were cut at, and the dict is no
    longer than the query string it was read from. *)
Lemma dict_of_params_values (params : list string) acc q :
  dict_of_params params acc = Ok q ->
  Forall (fun p => has_char SP p = false /\ has_char "?"%char p = false
                   /\ has_char "&"%char p = false) params ->
  map_Forall (fun _ v => plain v = true) acc ->
  map_Forall (fun _ v => plain v = true) q
  /\ (weight q <= weight acc + total_len params)%nat.
Proof.
  revert acc. induction params as [|p ps IH]; intros acc; simpl.
  - intros [= <-] _ Hacc. split; [assumption|lia].
  - destruct (getitem (split "="%char p) 0) as [k|] eqn:Ek; simpl; [|discriminate].
    destruct (getitem (split "="%char p) 1) as [v|] eqn:Ev; simpl; [|discriminate].
    intros Hq Hps Hacc. inversion Hps as [|? ? (Hsp & Hqm & Ham) Hrest]; subst.
    apply getitem_1 in Ev. destruct Ev as (k' & rest & Esplit).
    rewrite Esplit in Ek. apply getitem_0 in Ek.
    destruct Ek as (rest' & [= -> _]).
    assert (Hv : plain v = true).
    { pose proof (split_no_sep "="%char p) as H1.
      pose proof (split_keeps_absent _ "="%char p Hsp) as H2.
      pose proof (split_keeps_absent _ "="%char p Hqm) as H3.
      pose proof (split_keeps_absent _ "="%char p Ham) as H4.
      rewrite Esplit in H1, H2, H3, H4.
      inversion H1 as [|? ? _ H1']; inversion H1'; subst.
      inversion H2 as [|? ? _ H2']; inversion H2'; subst.
      inversion H3 as [|? ? _ H3']; inversion H3'; subst.
      inversion H4 as [|? ? _ H4']; inversion H4'; subst.
      unfold plain.
      repeat match goal with H : has_char _ v = false |- _ => rewrite H end.
      reflexivity. }
    destruct (IH _ Hq Hrest) as [Hvals Hw].
    { apply map_Forall_insert_2; assumption. }
    split; [exact Hvals|].
    pose proof (weight_insert acc k v) as Hi.
    pose proof (split_total "="%char p) as Ht. rewrite Esplit in Ht.
    simpl in Ht. lia.
Qed.

Lemma parse_request_values accepted request sub_url q :
  parse_request accepted request = Ok (sub_url, QDict q) ->
  map_Forall (fun _ v => plain v = true) q
  /\ (weight q + String.length sub_url + 1 <= String.length request)%nat.
Proof.
  unfold parse_request.
  destruct (getitem (splitn SP request 2) 1) as [url|] eqn:Eu; simpl;
    [|discriminate].
  destruct (getitem (split "?"%char url) 0) as [sub|] eqn:Es; simpl;
    [|discriminate].
  destruct (negb _); [discriminate|].
  destruct (getitem (split "?"%char url) 1) as [qs|] eqn:Eq; simpl;
    [|discriminate].
  destruct (dict_of_params (split "&"%char qs) ∅) as [m|] eqn:Ed; simpl;
    [|discriminate].
  intros [= <- <-].
  apply getitem_1 in Eu. destruct Eu as (a & rest & Esplit).
  apply getitem_1 in Eq. destruct Eq as (sub' & rest' & Eurl).
  rewrite Eurl in Es. apply getitem_0 in Es. destruct Es as (r0 & [= <- _]).
  pose proof (splitn_second _ _ _ _ _ Esplit) as Hsp.
  pose proof (splitn_total SP request 2) as Hlen1. rewrite Esplit in Hlen1.
  pose proof (split_total "?"%char url) as Hlen2. rewrite Eurl in Hlen2.
  pose proof (split_total "&"%char qs) as Hlen3.
  pose proof (split_keeps_absent _ "?"%char url Hsp) as Hqs_sp.
  pose proof (split_no_sep "?"%char url) as Hqs_q.
  rewrite Eurl in Hqs_sp, Hqs_q.
  inversion Hqs_sp as [|? ? _ H1]; inversion H1 as [|? ? Hqs1 _]; subst.
  inversion Hqs_q as [|? ? _ H2]; inversion H2 as [|? ? Hqs2 _]; subst.
  destruct (dict_of_params_values _ _ _ Ed) as [Hvals Hw].
  - pose proof (split_keeps_absent _ "&"%char qs Hqs1) as F1.
    pose proof (split_keeps_absent _ "&"%char qs Hqs2) as F2.
    pose proof (split_no_sep "&"%char qs) as F3.
    rewrite List.Forall_forall in *. intros p Hp. auto.
  - apply map_Forall_empty.
  - split; [exact Hvals|].
    assert (weight (∅ : gmap string string) = 0%nat) as Hw0 by reflexivity.
    simpl in Hlen1, Hlen2. lia.
Qed.

Lemma recv_length sent : (String.length (Main.recv sent) <= 1024)%nat.
Proof.
  unfold Main.recv. generalize 1024%nat. intros n. revert sent.
  induction n as [|n IH]; intros [|x s]; simpl; try lia.
  specialize (IH s). lia.
Qed.

(** *** Numerals *)

Lemma to_int_proper (z : Z) :
  Z.to_int z <> Decimal.Pos Decimal.Nil /\ Z.to_int z <> Decimal.Neg Decimal.Nil.
Proof.
  destruct z as [|p|p]; simpl; split; try discriminate;
    intros [= H]; exact (Unsigned.to_uint_nonnil p H).
Qed.

Lemma str_inj (a b : Z) : str a = str b -> a = b.
Proof.
  unfold str. intros H. apply to_int_inj.
  destruct (to_int_proper a) as [Ha1 Ha2], (to_int_proper b) as [Hb1 Hb2].
  apply (f_equal NilZero.int_of_string) in H.
  rewrite !NilZero.isi in H by assumption. congruence.
Qed.

Lemma uint_digits (u : Decimal.uint) :
  all_digits (NilEmpty.string_of_uint u) = true.
Proof. induction u; simpl; try reflexivity; exact IHu. Qed.

Lemma digit_facts c :
  is_digit c = true ->
  Py.is_space c = false /\ Sqlite.is_space c = false
  /\ Ascii.eqb c "_"%char = false /\ Ascii.eqb c "-"%char = false
  /\ Ascii.eqb c "+"%char = false.
Proof.
  destruct c as [[] [] [] [] [] [] [] []]; vm_compute; intros H;
    try discriminate H; repeat split; reflexivity.
Qed.

Lemma lstrip_digits space (s : string) :
  (forall c, is_digit c = true -> space c = false) ->
  all_digits s = true -> lstrip space s = s.
Proof.
  intros Hsp. destruct s as [|c s]; simpl; [reflexivity|].
  intros H. apply andb_true_iff in H. destruct H as [Hc _].
  rewrite (Hsp c Hc). reflexivity.
Qed.

Lemma rstrip_digits space (s : string) :
  (forall c, is_digit c = true -> space c = false) ->
  all_digits s = true -> rstrip space s = s.
Proof.
  intros Hsp. induction s as [|c s IH]; simpl; [reflexivity|].
  intros H. apply andb_true_iff in H. destruct H as [Hc Hs].
  rewrite (IH Hs), (Hsp c Hc). destruct s; reflexivity.
Qed.

Lemma drop_underscores_digits (s : string) :
  all_digits s = true -> drop_underscores s = Some s.
Proof.
  induction s as [|c s IH]; [reflexivity|].
  intros H. simpl in H. apply andb_true_iff in H. destruct H as [Hc Hs].
  destruct (digit_facts c Hc) as (_ & _ & Hu & _).
  cbn [drop_underscores]. rewrite Hu.
  destruct s as [|u s]; [reflexivity|].
  pose proof Hs as Hs'. simpl in Hs'. apply andb_true_iff in Hs'.
  destruct Hs' as [Hud _].
  destruct (digit_facts u Hud) as (_ & _ & Hu2 & _). rewrite Hu2.
  rewrite (IH Hs). reflexivity.
Qed.

Lemma of_uint_to_uint p : Z.of_uint (Pos.to_uint p) = Z.pos p.
Proof. unfold Z.of_uint. rewrite Unsigned.of_to. reflexivity. Qed.

(** The decimal text of a positive number, as [str] writes it. *)
Lemma pos_numeral p :
  let s := NilEmpty.string_of_uint (Pos.to_uint p) in
  NilZero.string_of_uint (Pos.to_uint p) = s /\ all_digits s = true
  /\ NilZero.uint_of_string s = Some (Pos.to_uint p)
  /\ exists c t, s = String c t /\ is_digit c = true.
Proof.
  intros s. pose proof (Unsigned.to_uint_nonnil p) as Hnn.
  assert (E : NilZero.string_of_uint (Pos.to_uint p) = s)
    by (unfold NilZero.string_of_uint; destruct (Pos.to_uint p); try reflexivity;
        contradiction).
  assert (D : all_digits s = true) by apply uint_digits.
  split; [exact E|]. split; [exact D|]. split.
  - rewrite <- E. apply NilZero.usu. exact Hnn.
  - subst s. destruct (Pos.to_uint p); try contradiction; simpl in *;
      do 2 eexists; (split; [reflexivity|reflexivity]).
Qed.

Lemma int_str (z : Z) : int (str z) = Some z.
Proof.
  destruct z as [|p|p]; [reflexivity| |]; unfold str, int; simpl Z.to_int;
    unfold NilZero.string_of_int;
    destruct (pos_numeral p) as (E & D & U & c & t & Es & Hc);
    destruct (digit_facts c Hc) as (Hs1 & _ & _ & Hm & Hp);
    rewrite E.
  - rewrite lstrip_digits, rstrip_digits
      by (assumption || intros ? H; apply (digit_facts _ H)).
    rewrite Es, Hm, Hp, <- Es. unfold nat_literal.
    rewrite (drop_underscores_digits _ D), U, of_uint_to_uint. reflexivity.
  - cbn [lstrip]. change (Py.is_space "-") with false.
    cbn [rstrip].
    rewrite rstrip_digits by (assumption || intros ? H; apply (digit_facts _ H)).
    rewrite Es at 1. rewrite Ascii.eqb_refl, <- Es. unfold nat_literal.
    rewrite (drop_underscores_digits _ D), U, of_uint_to_uint. reflexivity.
Qed.

Lemma integer_literal_str (z : Z) : Sqlite.integer_literal (str z) = Some z.
Proof.
  destruct z as [|p|p]; [reflexivity| |]; unfold str, Sqlite.integer_literal;
    simpl Z.to_int; unfold NilZero.string_of_int;
    destruct (pos_numeral p) as (E & D & U & c & t & Es & Hc);
    destruct (digit_facts c Hc) as (_ & Hs1 & _ & Hm & Hp);
    rewrite E.
  - rewrite lstrip_digits, rstrip_digits
      by (assumption || intros ? H; apply (digit_facts _ H)).
    rewrite Es, Hm, Hp, <- Es. unfold Sqlite.digits.
    rewrite U. simpl. rewrite of_uint_to_uint. reflexivity.
  - cbn [lstrip]. change (Sqlite.is_space "-") with false.
    cbn [rstrip].
    rewrite rstrip_digits by (assumption || intros ? H; apply (digit_facts _ H)).
    rewrite Es at 1. rewrite Ascii.eqb_refl, <- Es. unfold Sqlite.digits.
    rewrite U. simpl. rewrite of_uint_to_uint. reflexivity.
Qed.

(** The decimal numeral of an integer that fits 64 bits stands for that
    integer, for the room server and for SQLite alike. *)
Lemma str_denotes (z : Z) :
  - 2 ^ 63 <= z < 2 ^ 63 -> ReservationServer.denotes (str z) z.
Proof.
  intros H. split; [apply int_str|].
  unfold integer_affinity. rewrite integer_literal_str.
  replace ((- 2 ^ 63 <=? z) && (z <? 2 ^ 63)) with true; [reflexivity|].
  symmetry. apply andb_true_iff. rewrite Z.leb_le, Z.ltb_lt. exact H.
Qed.

Lemma append_cancel_l (p a b : string) : p +:+ a = p +:+ b -> a = b.
Proof.
  induction p as [|x p IH]; simpl; [tauto|]. intros [= H]. exact (IH H).
Qed.

Lemma append_cancel_r (a b c : string) : a +:+ c = b +:+ c -> a = b.
Proof.
  revert b. induction a as [|x a IH]; intros [|y b]; simpl; intros H.
  - reflexivity.
  - apply (f_equal String.length) in H. simpl in H.
    rewrite length_append in H. lia.
  - apply (f_equal String.length) in H. simpl in H.
    rewrite length_append in H. lia.
  - injection H as -> H. f_equal. exact (IH _ H).
Qed.

Lemma reservation_succesfull_inj (a b : Z) :
  ReservationServer.reservation_succesfull a
  = ReservationServer.reservation_succesfull b -> a = b.
Proof.
  unfold ReservationServer.reservation_succesfull, response, base_html.
  intros H. rewrite <- !append_assoc in H.
  apply append_cancel_r, append_cancel_r, append_cancel_r in H.
  rewrite !append_assoc in H.
  repeat (apply append_cancel_l in H). exact (str_inj _ _ H).
Qed.

End WireFacts.

(** ** The coordinator and its two collaborators *)

Section CoordinatorFacts.

Import ReservationServer.

(** What the activity server answers to the coordinator's check. *)
Lemma activity_server_check a w :
  plain a = true -> (String.length a + 16 <= 1024)%nat ->
  Main.activity_server (check_request a) w
  = (Main.World (Main.room_db w) (Main.room_log w) (Main.activity_db w)
                (Main.activity_log w ++ [check_request a]),
     if ActivityServer.activity_exists (Main.activity_db w) a
     then ActivityServer.activity_found else ActivityServer.activity_not_found).
Proof.
  intros Ha Hlen.
  assert (Hp : parse_request ActivityServer.accepted_sub_urls
                 (Main.recv (check_request a))
               = Ok ("/check", QDict (dict_of [("name", a)]))).
  { rewrite check_request_built. apply parse_request_built; try reflexivity.
    - discriminate.
    - repeat constructor. exact Ha.
    - unfold param. simpl. lia. }
  unfold Main.activity_server, Main.handle_request, ActivityServer.handle_request.
  rewrite Hp. cbn [String.eqb Ascii.eqb Bool.eqb with_query].
  unfold ActivityServer.get_check, item, dict_of.
  cbn [fold_left fst snd check_parameters].
  rewrite lookup_insert_eq. cbn [default from_option]. unfold id.
  destruct (ActivityServer.activity_exists (Main.activity_db w) a); reflexivity.
Qed.

Lemma check_parameters_none parameters (q : gmap string string) :
  check_parameters parameters q = None ->
  Forall (fun k => q !! k = Some (item q k)) parameters.
Proof.
  induction parameters as [|k ks IH]; simpl; [constructor|].
  destruct (q !! k) as [v|] eqn:E; [|discriminate].
  intros H. constructor; [|exact (IH H)].
  unfold item. rewrite E. reflexivity.
Qed.

(** C5. A reserve request whose activity the activity server does not know:
    the coordinator sends the check to the activity server, relays its 404
    and stops. No request goes to the room server, whose tables stay as they
    were, and no reservation record is written. *)
Theorem reserve_unknown_activity_stops sent d w query :
  parse_request accepted_sub_urls (Main.recv sent) = Ok ("/reserve", QDict query) ->
  check_parameters ["activity"; "room"; "day"; "hour"; "duration"] query = None ->
  ActivityServer.activity_exists (Main.activity_db w) (item query "activity")
    = false ->
  Main.reservation_server (Main.recv sent) (d, w)
  = ((d, Main.World (Main.room_db w) (Main.room_log w) (Main.activity_db w)
           (Main.activity_log w ++ [check_request (item query "activity")])),
     Ok (Bytes ActivityServer.activity_not_found)).
Proof.
  intros Hp Hc Ha.
  destruct (parse_request_values _ _ _ _ Hp) as [Hvals Hw].
  pose proof (recv_length sent) as Hlen.
  pose proof (check_parameters_none _ _ Hc) as Hkeys.
  inversion Hkeys as [|? ? Hact _]; subst.
  pose proof (Hvals _ _ Hact) as Hplain. simpl in Hplain.
  pose proof (weight_lookup _ _ _ Hact) as Hwa. simpl in Hw, Hwa.
  unfold Main.reservation_server, handle_request. rewrite Hp.
  cbn [String.eqb Ascii.eqb Bool.eqb with_query].
  unfold get_reserve. rewrite Hc.
  rewrite (activity_server_check _ w Hplain) by lia.
  rewrite Ha. reflexivity.
Qed.

(** Chess is not registered, Yoga is. *)
Lemma reserve_unknown_activity_witness :
  let sent :=
    "GET /reserve?activity=Chess&room=A101&day=2&hour=10&duration=2 HTTP/1.1" in
  let w := Main.World (RoomServer.Db ["A101"] []) [] ["Yoga"] [] in
  Main.reservation_server (Main.recv sent) ([], w)
  = (([], Main.World (RoomServer.Db ["A101"] []) [] ["Yoga"]
            [check_request "Chess"]),
     Ok (Bytes ActivityServer.activity_not_found)).
Proof.
  intros sent w.
  pose (q := {[ "activity" := "Chess"; "room" := "A101"; "day" := "2";
                "hour" := "10"; "duration" := "2" ]} : gmap string string).
  apply (reserve_unknown_activity_stops sent [] w q).
  - vm_compute. reflexivity.
  - vm_compute. reflexivity.
  - vm_compute. reflexivity.
Defined.

(** What the room server does with the coordinator's reserve request. *)
Lemma room_server_reserve r dy h n w :
  plain r = true -> plain dy = true -> plain h = true -> plain n = true ->
  (String.length r + String.length dy + String.length h + String.length n + 39
   <= 1024)%nat ->
  Main.room_server (reserve_request r dy h n) w
  = (Main.World
       (fst (RoomServer.get_reserve
               (dict_of [("name", r); ("day", dy); ("hour", h); ("duration", n)])
               (Main.room_db w)))
       (Main.room_log w ++ [reserve_request r dy h n])
       (Main.activity_db w) (Main.activity_log w),
     Main.recv
       match snd (RoomServer.get_reserve
                    (dict_of [("name", r); ("day", dy); ("hour", h);
                              ("duration", n)])
                    (Main.room_db w)) with
       | Ok (Bytes s) => s
       | _ => EmptyString
       end).
Proof.
  intros Hr Hd Hh Hn Hlen.
  assert (Hp : parse_request RoomServer.accepted_sub_urls
                 (Main.recv (reserve_request r dy h n))
               = Ok ("/reserve",
                     QDict (dict_of [("name", r); ("day", dy); ("hour", h);
                                     ("duration", n)]))).
  { rewrite reserve_request_built. apply parse_request_built; try reflexivity.
    - discriminate.
    - repeat constructor; assumption.
    - unfold param. repeat (progress (simpl; rewrite ?length_append)). lia. }
  unfold Main.room_server, Main.handle_request, RoomServer.handle_request.
  rewrite Hp. cbn [String.eqb Ascii.eqb Bool.eqb with_query].
  destruct (RoomServer.get_reserve _ _) as [d1 [[s|]|e]]; reflexivity.
Qed.

Lemma reserve_query_built r dy h n day hour duration :
  int dy = Some day -> int h = Some hour -> int n = Some duration ->
  RoomServer.reserve_query
    (dict_of [("name", r); ("day", dy); ("hour", h); ("duration", n)])
    r day hour duration.
Proof.
  intros Hd Hh Hn. exists dy, h, n. unfold dict_of. cbn [fold_left fst snd].
  repeat split; try assumption; simplify_map_eq; reflexivity.
Qed.

Lemma check_parameters_some parameters (q : gmap string string) r :
  check_parameters parameters q = Some r ->
  exists k, r = bad_request (k +:+ " parameter is mandatory").
Proof.
  induction parameters as [|k ks IH]; simpl; [discriminate|].
  destruct (q !! k); [exact IH|]. intros [= <-]. eexists. reflexivity.
Qed.

(** No answer of the room server to a reserve request reads as the
    coordinator's own success page. *)
Lemma room_reply_not_success q rdb id :
  Main.recv match snd (RoomServer.get_reserve q rdb) with
            | Ok (Bytes s) => s
            | _ => EmptyString
            end
  <> reservation_succesfull id.
Proof.
  unfold RoomServer.get_reserve.
  destruct (check_parameters _ q) as [r|] eqn:Hc.
  { apply check_parameters_some in Hc. destruct Hc as [k ->].
    simpl. intros H. vm_compute in H. discriminate H. }
  destruct (int (item q "day")) as [day|]; [|intros H; vm_compute in H; discriminate H].
  destruct (int (item q "hour")) as [hour|]; [|intros H; vm_compute in H; discriminate H].
  destruct (int (item q "duration")) as [duration|];
    [|intros H; vm_compute in H; discriminate H].
  destruct (negb _); [intros H; vm_compute in H; discriminate H|].
  destruct (negb _); [intros H; vm_compute in H; discriminate H|].
  destruct (_ <? _); [intros H; vm_compute in H; discriminate H|].
  destruct (negb _); [intros H; vm_compute in H; discriminate H|].
  destruct (range duration) as [|i rest]; simpl;
    [intros H; vm_compute in H; discriminate H|].
  unfold RoomServer.reserve_body.
  destruct (RoomServer.slot_taken _ _ _ _); simpl;
    intros H; vm_compute in H; discriminate H.
Qed.

Lemma room_reply_invalid_day q rdb name dy h n :
  RoomServer.reserve_query q name dy h n -> ~ 1 <= dy <= 7 ->
  RoomServer.get_reserve q rdb
  = (rdb, Ok (Bytes (bad_request "Invalid day parameter"))).
Proof.
  intros Hq Hd. rewrite (get_reserve_parsed _ _ _ _ _ _ Hq).
  replace ((1 <=? dy) && (dy <=? 7)) with false; [reflexivity|].
  symmetry. apply andb_false_iff. rewrite Z.leb_gt, Z.leb_gt. lia.
Qed.

Lemma getitem_weekday dy :
  1 <= dy <= 7 -> getitem day_names (dy - 1) = Ok (weekday dy).
Proof.
  intros H.
  assert (E : dy = 1 \/ dy = 2 \/ dy = 3 \/ dy = 4 \/ dy = 5 \/ dy = 6 \/ dy = 7)
    by lia.
  repeat (destruct E as [->|E]; [reflexivity|]). subst. reflexivity.
Qed.

(** The page [get_display] makes of the record appended last. *)
Lemma display_last d (w : Main.world) r a dy h n idtext :
  integer_affinity idtext = SqlInt (Z.of_nat (length d) + 1) ->
  1 <= dy <= 7 ->
  Main.get_display {[ "id" := idtext ]}
    (d ++ [Reservation r a (SqlInt dy) (SqlInt h) (SqlInt n)], w)
  = ((d ++ [Reservation r a (SqlInt dy) (SqlInt h) (SqlInt n)], w),
     Ok (Bytes (response "200 OK" "Reservation Info"
                  (reservation_details r a (weekday dy) (str h) (str (h + n))
                     (str n))))).
Proof.
  intros Hid Hd. unfold Main.get_display, get_display, item.
  cbn [check_parameters]. rewrite lookup_singleton_eq. cbn [default from_option].
  unfold id, select_by_id. rewrite Hid.
  replace (1 <=? Z.of_nat (length d) + 1) with true
    by (symmetry; apply Z.leb_le; lia).
  replace (Z.to_nat (Z.of_nat (length d) + 1 - 1)) with (length d) by lia.
  rewrite nth_error_app2 by lia. rewrite Nat.sub_diag. cbn [nth_error].
  cbn [day hour duration room activity py_sub py_add].
  unfold mbind, res_bind. cbn [bind]. rewrite (getitem_weekday dy Hd).
  reflexivity.
Qed.

Lemma weight_reserve_keys (q : gmap string string) a r dy h n :
  q !! "activity" = Some a -> q !! "room" = Some r -> q !! "day" = Some dy ->
  q !! "hour" = Some h -> q !! "duration" = Some n ->
  (String.length a + String.length r + String.length dy + String.length h
   + String.length n + 37 <= weight q)%nat.
Proof.
  intros Ha Hr Hd Hh Hn.
  rewrite (weight_lookup q _ _ Ha).
  rewrite (weight_lookup (delete "activity" q) "room" r)
    by (rewrite lookup_delete_ne by discriminate; exact Hr).
  rewrite (weight_lookup (delete "room" (delete "activity" q)) "day" dy)
    by (rewrite !lookup_delete_ne by discriminate; exact Hd).
  rewrite (weight_lookup (delete "day" (delete "room" (delete "activity" q)))
             "hour" h)
    by (rewrite !lookup_delete_ne by discriminate; exact Hh).
  rewrite (weight_lookup
             (delete "hour" (delete "day" (delete "room" (delete "activity" q))))
             "duration" n)
    by (rewrite !lookup_delete_ne by discriminate; exact Hn).
  simpl. lia.
Qed.



(** C6. A listavailability request with day 8: looking up the label
    [day_names[day - 1]] raises IndexError while the list of requests is
    built, before any request is sent. The room server receives nothing and
    the client gets no response, although the room server would have
    answered the query with its 400. With day 0 the label is found through
    a negative index, the one query is sent and the 400 is relayed. *)
Theorem listavailability_day_out_of_range :
  let w := Main.World (RoomServer.Db ["A101"] []) [] ["Yoga"] [] in
  Main.reservation_server
    (Main.recv "GET /listavailability?room=A101&day=8 HTTP/1.1") ([], w)
  = (([], w), Raise IndexError)
  /\ snd (Main.room_server (checkavailability_request "A101" 8) w)
     = bad_request "Invalid day paramater"
  /\ Main.reservation_server
       (Main.recv "GET /listavailability?room=A101&day=0 HTTP/1.1") ([], w)
     = (([], Main.World (RoomServer.Db ["A101"] [])
               [checkavailability_request "A101" 0] ["Yoga"] []),
        Ok (Bytes (bad_request "Invalid day paramater"))).
Proof. vm_compute. repeat split; reflexivity. Qed.



(** *** The availability list *)

Lemma small_day_numeral day :
  -6 <= day <= 7 ->
  plain (str day) = true /\ int (str day) = Some day
  /\ (String.length (str day) <= 2)%nat.
Proof.
  intros H.
  assert (E : day = -6 \/ day = -5 \/ day = -4 \/ day = -3 \/ day = -2
              \/ day = -1 \/ day = 0 \/ day = 1 \/ day = 2 \/ day = 3
              \/ day = 4 \/ day = 5 \/ day = 6 \/ day = 7) by lia.
  repeat (destruct E as [->|E]; [vm_compute; repeat split; lia|]).
  subst. vm_compute. repeat split; lia.
Qed.

Lemma room_server_checkavailability r day w :
  plain r = true -> (String.length r + 36 <= 1024)%nat -> -6 <= day <= 7 ->
  Main.room_server (checkavailability_request r day) w
  = (Main.World (Main.room_db w)
       (Main.room_log w ++ [checkavailability_request r day])
       (Main.activity_db w) (Main.activity_log w),
     Main.recv (Main.availability_reply (Main.room_db w) r day)).
Proof.
  intros Hr Hlen Hday.
  destruct (small_day_numeral day Hday) as (Pd & Id & Ld).
  assert (Hp : parse_request RoomServer.accepted_sub_urls
                 (Main.recv (checkavailability_request r day))
               = Ok ("/checkavailability",
                     QDict (dict_of [("name", r); ("day", str day)]))).
  { rewrite checkavailability_request_built.
    apply parse_request_built; try reflexivity.
    - discriminate.
    - repeat constructor; assumption.
    - unfold param. repeat (progress (simpl; rewrite ?length_append)). lia. }
  unfold Main.room_server, Main.handle_request, RoomServer.handle_request.
  rewrite Hp. cbn [String.eqb Ascii.eqb Bool.eqb with_query].
  unfold RoomServer.get_check_availability, item, dict_of.
  cbn [fold_left fst snd check_parameters].
  rewrite lookup_insert_ne by discriminate. rewrite !lookup_insert_eq.
  cbn [default from_option]. unfold id. rewrite Id.
  unfold Main.availability_reply.
  destruct (negb (RoomServer.room_exists (Main.room_db w) r)); [reflexivity|].
  destruct (negb ((1 <=? day) && (day <=? 7))); reflexivity.
Qed.


(** The 200 page of the room server carries no error marker and its body is
    the list of hours, whichever hours are left. *)
Lemma availability_page (f : Z -> bool) :
  let hours := List.filter f (range2 9 18) in
  let page := Main.recv (RoomServer.availability_response hours) in
  str_in "404 Not Found" page || str_in "400 Bad Request" page = false
  /\ search_body page
     = Some ("The following hours are available: "
             +:+ String.concat ",  " (map str hours)).
Proof.
  rewrite hours_9_17. cbn [List.filter].
  destruct (f 9), (f 10), (f 11), (f 12), (f 13), (f 14), (f 15), (f 16), (f 17);
    vm_compute; split; reflexivity.
Qed.


(** One turn of the loop of [get_listavailability] against the room server. *)
Lemma listavailability_body_room r day label w acc :
  plain r = true -> (String.length r + 36 <= 1024)%nat -> -6 <= day <= 7 ->
  listavailability_body Main.room_server
    (checkavailability_request r day, label) (w, acc)
  = let w' := Main.World (Main.room_db w)
                (Main.room_log w ++ [checkavailability_request r day])
                (Main.activity_db w) (Main.activity_log w) in
    if negb (RoomServer.room_exists (Main.room_db w) r) then
      ((w', acc), Some (Ok (Bytes (bad_request "Room Does not exist"))))
    else if negb ((1 <=? day) && (day <=? 7)) then
      ((w', acc), Some (Ok (Bytes (bad_request "Invalid day paramater"))))
    else
      ((w', acc +:+ "For " +:+ label +:+ ": "
            +:+ ("The following hours are available: "
                 +:+ String.concat ",  "
                       (map str (RoomServer.availability (Main.room_db w) r day)))
            +:+ "<br></br>"),
       None).
Proof.
  intros Hr Hlen Hday. unfold listavailability_body.
  rewrite (room_server_checkavailability r day w Hr Hlen Hday).
  unfold Main.availability_reply.
  destruct (negb (RoomServer.room_exists (Main.room_db w) r)); [reflexivity|].
  destruct (negb ((1 <=? day) && (day <=? 7))); [reflexivity|].
  rewrite availability_filter.
  destruct (availability_page
              (fun h => negb (RoomServer.slot_taken (Main.room_db w) r day h)))
    as [Hm Hb].
  cbv zeta in Hm, Hb. rewrite Hm, Hb. reflexivity.
Qed.


(** Without a day, on a request short enough for the forwarded queries to
    fit one read: seven queries go to the room server, for the days 1 to 7
    in this order, and the answer joins the seven labelled lines; when the
    room is unknown the first query fails, its answer is relayed and no
    further query is sent. *)
Lemma listavailability_week sent d w query r :
  parse_request accepted_sub_urls (Main.recv sent)
    = Ok ("/listavailability", QDict query) ->
  query !! "room" = Some r -> query !! "day" = None ->
  (String.length r + 36 <= 1024)%nat ->
  Main.reservation_server (Main.recv sent) (d, w)
  = if RoomServer.room_exists (Main.room_db w) r then
      ((d, Main.World (Main.room_db w)
             (Main.room_log w ++ map (checkavailability_request r) (range2 1 8))
             (Main.activity_db w) (Main.activity_log w)),
       Ok (Bytes (response "200 OK" "Availabilities"
                    (String.concat EmptyString
                       (map (Main.day_line (Main.room_db w) r) (range2 1 8))))))
    else
      ((d, Main.World (Main.room_db w)
             (Main.room_log w ++ [checkavailability_request r 1])
             (Main.activity_db w) (Main.activity_log w)),
       Ok (Bytes (bad_request "Room Does not exist"))).
Proof.
  intros Hp Hroom Hday Hlen.
  destruct (parse_request_values _ _ _ _ Hp) as [Hvals _].
  pose proof (Hvals _ _ Hroom) as Pr. simpl in Pr.
  unfold Main.reservation_server, handle_request. rewrite Hp.
  cbn [String.eqb Ascii.eqb Bool.eqb with_query].
  unfold get_listavailability, item. cbn [check_parameters].
  rewrite Hroom, Hday. cbn [default from_option]. unfold id.
  change (requests_for r (range2 1 8))
    with (Ok [(checkavailability_request r 1, "Monday");
              (checkavailability_request r 2, "Tuesday");
              (checkavailability_request r 3, "Wednesday");
              (checkavailability_request r 4, "Thursday");
              (checkavailability_request r 5, "Friday");
              (checkavailability_request r 6, "Saturday");
              (checkavailability_request r 7, "Sunday")]).
  cbn [for_each].
  rewrite (listavailability_body_room r 1 _ w) by (assumption || lia).
  cbv zeta.
  destruct (RoomServer.room_exists (Main.room_db w) r) eqn:Hex; [|reflexivity].
  cbn [negb Z.leb Z.compare Pos.compare Pos.compare_cont andb Main.room_db
       Main.room_log Main.activity_db Main.activity_log].
  do 6 (rewrite listavailability_body_room by (assumption || lia);
        cbv zeta;
        cbn [Main.room_db Main.room_log Main.activity_db Main.activity_log];
        rewrite Hex;
        cbn [negb Z.leb Z.compare Pos.compare Pos.compare_cont andb]).
  f_equal.
  - f_equal. f_equal. rewrite <- !app_assoc. reflexivity.
  - do 3 f_equal. unfold Main.day_line.
    change (range2 1 8) with [1; 2; 3; 4; 5; 6; 7].
    cbn [map String.concat]. unfold weekday.
    cbn [nth Z.to_nat Z.sub Z.add Z.opp Z.pos_sub Pos.to_nat Pos.iter_op
         Nat.add Init.Nat.add day_names Pos.pred_double Z.succ_double
         Z.pred_double Z.double].
    repeat (progress (simpl String.append; rewrite ?append_assoc)).
    reflexivity.
Qed.



End CoordinatorFacts.

(** * Further properties of the servers *)

(** Turns boolean comparisons among the hypotheses into arithmetic. *)
Ltac bool_lia :=
  repeat match goal with
         | H : _ && _ = true |- _ => apply andb_true_iff in H; destruct H
         | H : _ && _ = false |- _ => apply andb_false_iff in H; destruct H
         | H : (_ <=? _) = true |- _ => apply Z.leb_le in H
         | H : (_ <=? _) = false |- _ => apply Z.leb_gt in H
         | H : (_ <? _) = true |- _ => apply Z.ltb_lt in H
         | H : (_ <? _) = false |- _ => apply Z.ltb_ge in H
         end; lia.

(** ** Requests and their parameters *)

Section RequestFacts.

(** [check_parameters] accepts a query exactly when every required
    parameter is there; otherwise its 400 names the first one missing. *)
Theorem check_parameters_first_missing parameters (q : gmap string string) :
  match check_parameters parameters q with
  | None => Forall (fun k => is_Some (q !! k)) parameters
  | Some r =>
      exists before k after,
        parameters = before ++ k :: after
        /\ Forall (fun k => is_Some (q !! k)) before
        /\ q !! k = None
        /\ r = bad_request (k +:+ " parameter is mandatory")
  end.
Proof.
  induction parameters as [|k ks IH]; simpl; [constructor|].
  destruct (q !! k) as [v|] eqn:E.
  - destruct (check_parameters ks q) as [r|].
    + destruct IH as (before & k' & after & -> & Hb & Hk & ->).
      exists (k :: before), k', after. repeat split; try assumption.
      constructor; [rewrite E; eauto|assumption].
    + constructor; [rewrite E; eauto|assumption].
  - exists [], k, ks. repeat split; [constructor|assumption].
Qed.



(** Whatever the request, the values [parse_request] hands to a handler
    hold no blank, [?], [&] or [=], and a parameter with its name, the
    sub-URL and the three separators around them fit in the request. *)
Theorem parse_request_plain_values accepted request sub_url
    (q : gmap string string) :
  parse_request accepted request = Ok (sub_url, QDict q) ->
  forall k v, q !! k = Some v ->
    plain v = true
    /\ (String.length sub_url + String.length k + String.length v + 3
        <= String.length request)%nat.
Proof.
  intros Hp k v Hk. destruct (parse_request_values _ _ _ _ Hp) as [Hvals Hw].
  split; [exact (Hvals _ _ Hk)|].
  rewrite (weight_lookup q k v Hk) in Hw. lia.
Qed.

Lemma parse_request_plain_values_witness :
  plain "A101" = true
  /\ (String.length "/add" + String.length "name" + String.length "A101" + 3
      <= String.length "GET /add?name=A101 HTTP/1.1")%nat.
Proof.
  pose (q := {[ "name" := "A101" ]} : gmap string string).
  assert (Hp : parse_request RoomServer.accepted_sub_urls
                 "GET /add?name=A101 HTTP/1.1" = Ok ("/add", QDict q))
    by (vm_compute; reflexivity).
  apply (parse_request_plain_values _ _ _ q Hp "name" "A101").
  vm_compute. reflexivity.
Defined.



End RequestFacts.

(** ** The room server's tables *)

Section RoomTableFacts.

Import RoomServer.

Lemma room_exists_In d name : room_exists d name = true <-> In name (rooms d).
Proof.
  unfold room_exists. rewrite existsb_exists. split.
  - intros (x & Hx & E). apply String.eqb_eq in E. subst. exact Hx.
  - intros H. exists name. split; [exact H|apply String.eqb_refl].
Qed.

Lemma nodup_snoc {A} (l : list A) x :
  List.NoDup l -> ~ In x l -> List.NoDup (l ++ [x]).
Proof.
  induction 1 as [|y l Hy Hl IH]; intros Hx; simpl.
  - constructor; [intros []|constructor].
  - constructor.
    + rewrite in_app_iff. intros [H|[H|[]]]; [contradiction|].
      apply Hx. left. symmetry. exact H.
    + apply IH. intros H. apply Hx. right. exact H.
Qed.

Lemma insert_hours_well_formed name day hour duration d :
  well_formed d -> 1 <= day <= 7 -> 9 <= hour <= 17 -> hour + duration <= 18 ->
  well_formed (insert_hours name day hour duration d).
Proof.
  intros [Hn Hr] Hd Hh Hu. rewrite insert_hours_rows. split; [exact Hn|].
  simpl. apply Forall_app. split; [exact Hr|].
  apply List.Forall_forall. intros [[n dy] h] Hin.
  apply in_map_iff in Hin. destruct Hin as (i & [= <- <- <-] & Hi).
  apply in_range in Hi. lia.
Qed.

Lemma get_reserve_well_formed q d :
  well_formed d -> well_formed (fst (get_reserve q d)).
Proof.
  intros Hwf. unfold get_reserve.
  destruct (check_parameters _ q); [exact Hwf|].
  destruct (int (item q "day")) as [day|]; [|exact Hwf].
  destruct (int (item q "hour")) as [hour|]; [|exact Hwf].
  destruct (int (item q "duration")) as [duration|]; [|exact Hwf].
  destruct ((1 <=? day) && (day <=? 7)) eqn:Ed; [|exact Hwf].
  destruct ((9 <=? hour) && (hour <=? 17)) eqn:Eh; [|exact Hwf].
  destruct (18 <? hour + duration) eqn:Eu; [exact Hwf|].
  destruct (negb (room_exists d (item q "name"))); [exact Hwf|]. simpl.
  apply andb_true_iff in Ed, Eh. rewrite !Z.leb_le in Ed, Eh.
  apply Z.ltb_ge in Eu.
  destruct (range duration) as [|i rest]; [exact Hwf|]. simpl.
  unfold reserve_body. destruct (slot_taken _ _ _ _); [exact Hwf|]. simpl.
  apply insert_hours_well_formed; assumption.
Qed.

Lemma handle_request_well_formed request d :
  well_formed d -> well_formed (fst (handle_request request d)).
Proof.
  intros Hwf. unfold handle_request.
  destruct (parse_request _ request) as [[sub_url query]|e]; [|exact Hwf].
  destruct (String.eqb sub_url "/add").
  { destruct query as [q|]; [|exact Hwf]. simpl. unfold get_add.
    destruct (check_parameters _ q); [exact Hwf|].
    destruct (room_exists d (item q "name")) eqn:E; [exact Hwf|].
    destruct Hwf as [Hn Hr]. split; [|exact Hr]. simpl.
    apply nodup_snoc; [exact Hn|].
    intros Hx. apply room_exists_In in Hx. congruence. }
  destruct (String.eqb sub_url "/remove").
  { destruct query as [q|]; [|exact Hwf]. simpl. unfold get_remove.
    destruct (check_parameters _ q); [exact Hwf|].
    destruct (negb _); [exact Hwf|].
    destruct Hwf as [Hn Hr]. split; [|exact Hr]. simpl.
    apply List.NoDup_filter. exact Hn. }
  destruct (String.eqb sub_url "/reserve").
  { destruct query as [q|]; [|exact Hwf]. simpl.
    apply get_reserve_well_formed. exact Hwf. }
  destruct (String.eqb sub_url "/checkavailability"); [|exact Hwf].
  destruct query as [q|]; [|exact Hwf]. simpl. unfold get_check_availability.
  destruct (check_parameters _ q); [exact Hwf|].
  destruct (int _); [|exact Hwf].
  destruct (negb _); [exact Hwf|]. destruct (negb _); exact Hwf.
Qed.

(** Whatever requests the room server handles, starting from the empty
    tables: no room name is registered twice, and every reservation row has
    a day in 1..7 and an hour in 9..17. *)
Theorem room_tables_stay_well_formed requests :
  well_formed (run requests empty).
Proof.
  assert (G : forall d, well_formed d -> well_formed (run requests d)).
  { unfold run. induction requests as [|r rs IH]; intros d Hwf; [exact Hwf|].
    simpl. apply IH. apply handle_request_well_formed. exact Hwf. }
  apply G. split; [constructor|constructor].
Qed.

(** The room server changes its tables only together with a 200 answer:
    after any other outcome (a 400, a 403, an exception, the [None] of a
    non-positive duration) the tables are what they were. An availability
    query never changes them, whatever it answers. *)
Theorem room_tables_change_only_on_200 request d :
  (fst (handle_request request d) = d
   \/ exists resp,
        snd (handle_request request d) = Ok (Bytes resp)
        /\ String.prefix "HTTP/1.1 200 OK" resp = true)
  /\ forall q, fst (get_check_availability q d) = d.
Proof.
  split.
  - unfold handle_request.
    destruct (parse_request _ request) as [[sub_url query]|e]; [|left; reflexivity].
    destruct (String.eqb sub_url "/add").
    { destruct query as [q|]; [|left; reflexivity]. simpl. unfold get_add.
      destruct (check_parameters _ q); [left; reflexivity|].
      destruct (room_exists d (item q "name")); [left; reflexivity|].
      right. eexists. split; reflexivity. }
    destruct (String.eqb sub_url "/remove").
    { destruct query as [q|]; [|left; reflexivity]. simpl. unfold get_remove.
      destruct (check_parameters _ q); [left; reflexivity|].
      destruct (negb _); [left; reflexivity|].
      right. eexists. split; reflexivity. }
    destruct (String.eqb sub_url "/reserve").
    { destruct query as [q|]; [|left; reflexivity]. simpl. unfold get_reserve.
      destruct (check_parameters _ q); [left; reflexivity|].
      destruct (int (item q "day")) as [day|]; [|left; reflexivity].
      destruct (int (item q "hour")) as [hour|]; [|left; reflexivity].
      destruct (int (item q "duration")) as [duration|]; [|left; reflexivity].
      destruct (negb _); [left; reflexivity|].
      destruct (negb _); [left; reflexivity|].
      destruct (_ <? _); [left; reflexivity|].
      destruct (negb _); [left; reflexivity|].
      destruct (range duration) as [|i rest]; [left; reflexivity|]. simpl.
      unfold reserve_body. destruct (slot_taken _ _ _ _); [left; reflexivity|].
      right. eexists. split; reflexivity. }
    destruct (String.eqb sub_url "/checkavailability"); [|left; reflexivity].
    destruct query as [q|]; [|left; reflexivity]. simpl.
    unfold get_check_availability.
    destruct (check_parameters _ q); [left; reflexivity|].
    destruct (int _); [|left; reflexivity].
    destruct (negb _); [left; reflexivity|].
    destruct (negb _); left; reflexivity.
  - intros q. unfold get_check_availability.
    destruct (check_parameters _ q); [reflexivity|].
    destruct (int _); [|reflexivity].
    destruct (negb _); [reflexivity|]. destruct (negb _); reflexivity.
Qed.

(** Removing a registered room deletes its name only: its reservation rows
    stay. While the room is gone the other rooms are untouched; once a room
    of that name is added again, its availability is what it was before the
    removal, old bookings included. *)
Theorem remove_keeps_reservations q d name :
  q !! "name" = Some name -> room_exists d name = true ->
  let d1 := fst (get_remove q d) in
  let d2 := fst (get_add q d1) in
  reservations d1 = reservations d
  /\ room_exists d1 name = false
  /\ (forall other, other <> name -> room_exists d1 other = room_exists d other)
  /\ room_exists d2 name = true
  /\ reservations d2 = reservations d
  /\ forall day, availability d2 name day = availability d name day.
Proof.
  intros Hq Hex.
  assert (E1 : fst (get_remove q d) = delete_room d name).
  { unfold get_remove, item. simpl. rewrite Hq. simpl. rewrite Hex. reflexivity. }
  assert (Hgone : room_exists (delete_room d name) name = false).
  { apply not_true_iff_false. rewrite room_exists_In. simpl.
    rewrite List.filter_In, String.eqb_refl. simpl. intros [_ H]. discriminate. }
  assert (E2 : fst (get_add q (delete_room d name))
               = insert_room (delete_room d name) name).
  { unfold get_add, item. simpl. rewrite Hq. simpl.
    change (existsb (String.eqb name) _) with (room_exists (delete_room d name) name).
    rewrite Hgone. reflexivity. }
  cbv zeta. rewrite E1, E2. repeat split.
  - exact Hgone.
  - intros other Hne. apply eq_true_iff_eq. rewrite !room_exists_In. simpl.
    rewrite List.filter_In, negb_true_iff, String.eqb_neq. tauto.
  - apply room_exists_In. simpl. apply in_app_iff. right. left. reflexivity.
Qed.

(** Room A101 with hour 10 of day 2 booked, removed and added again. *)
Lemma remove_keeps_reservations_witness :
  let q : gmap string string := {[ "name" := "A101" ]} in
  let d := Db ["A101"] [("A101", 2, 10)] in
  availability (fst (get_add q (fst (get_remove q d)))) "A101" 2
  = availability d "A101" 2.
Proof.
  intros q d.
  destruct (remove_keeps_reservations q d "A101" eq_refl eq_refl)
    as (_ & _ & _ & _ & _ & H).
  exact (H 2).
Defined.

Lemma slot_taken_other name day hour duration d name' day' x :
  name' <> name \/ day' <> day ->
  slot_taken (insert_hours name day hour duration d) name' day' x
  = slot_taken d name' day' x.
Proof.
  intros Hne. rewrite insert_hours_rows. unfold slot_taken. simpl.
  rewrite existsb_app.
  replace (existsb _ (map _ (range duration))) with false;
    [apply orb_false_r|].
  symmetry. apply not_true_iff_false. rewrite existsb_exists.
  intros ([[n dy] h] & Hin & Hm). apply in_map_iff in Hin.
  destruct Hin as (i & [= <- <- <-] & _).
  rewrite !andb_true_iff, String.eqb_eq, Z.eqb_eq in Hm.
  destruct Hm as [[-> ->] _]. destruct Hne; congruence.
Qed.

(** A successful reserve touches one room and one day: the registered rooms
    are the same, and for every other room, and for every other day of the
    same room, the free hours are what they were. *)
Theorem reserve_leaves_other_rooms_and_days q name day hour duration d d' :
  reserve_query q name day hour duration ->
  get_reserve q d = (d', Ok (Bytes (reservation_successful name))) ->
  rooms d' = rooms d
  /\ forall name' day', name' <> name \/ day' <> day ->
       availability d' name' day' = availability d name' day'.
Proof.
  intros Hq Hres.
  destruct (reserve_success_rows _ _ _ _ _ _ _ Hq Hres) as (-> & _).
  split; [rewrite insert_hours_rows; reflexivity|].
  intros name' day' Hne. rewrite !availability_filter.
  apply filter_same. intros x. rewrite slot_taken_other by exact Hne.
  reflexivity.
Qed.

(** Booking A101 on day 2 leaves day 3 of A101 and day 2 of B202 alone. *)
Lemma reserve_leaves_other_rooms_and_days_witness :
  let q : gmap string string :=
    {[ "name" := "A101"; "day" := "2"; "hour" := "10"; "duration" := "2" ]} in
  let d := Db ["A101"; "B202"] [("B202", 2, 9)] in
  availability (fst (get_reserve q d)) "A101" 3 = availability d "A101" 3
  /\ availability (fst (get_reserve q d)) "B202" 2 = availability d "B202" 2.
Proof.
  intros q d.
  assert (Hq : reserve_query q "A101" 2 10 2)
    by (exists "2", "10", "2"; repeat split; reflexivity).
  assert (Hres : get_reserve q d
                 = (fst (get_reserve q d),
                    Ok (Bytes (reservation_successful "A101"))))
    by (vm_compute; reflexivity).
  destruct (reserve_leaves_other_rooms_and_days q "A101" 2 10 2 d _ Hq Hres)
    as [_ H].
  split; apply H; [right|left]; discriminate.
Defined.

Lemma count_in_block (hour x : Z) (k s : nat) :
  length (List.filter (fun i => hour + i =? x)
            (map (fun i => 0 + Z.of_nat i) (seq s k)))
  = if (hour + Z.of_nat s <=? x) && (x <? hour + Z.of_nat s + Z.of_nat k)
    then 1%nat else 0%nat.
Proof.
  revert s. induction k as [|k IH]; intros s; cbn [seq map List.filter length].
  - destruct (_ && _) eqn:E; [exfalso; bool_lia|reflexivity].
  - rewrite Z.add_0_l.
    destruct (Z.eqb_spec (hour + Z.of_nat s) x) as [E|E]; cbn [length];
      rewrite IH;
      destruct ((hour + Z.of_nat (S s) <=? x)
                && (x <? hour + Z.of_nat (S s) + Z.of_nat k)) eqn:E1;
      destruct ((hour + Z.of_nat s <=? x)
                && (x <? hour + Z.of_nat s + Z.of_nat (S k))) eqn:E2;
      try reflexivity; exfalso; bool_lia.
Qed.

Lemma occupants_insert_hours name day hour duration d x :
  occupants (insert_hours name day hour duration d) name day x
  = (occupants d name day x
     + if ((hour <=? x) && (x <? hour + duration))%Z then 1 else 0)%nat.
Proof.
  rewrite insert_hours_rows. unfold occupants. simpl.
  rewrite List.filter_app, length_app. f_equal.
  unfold range, range2.
  transitivity (length (List.filter (fun i => hour + i =? x)
                          (map (fun i => 0 + Z.of_nat i)
                               (seq 0 (Z.to_nat (duration - 0)))))).
  - induction (map (fun i => 0 + Z.of_nat i) (seq 0 (Z.to_nat (duration - 0))))
      as [|i l IH]; simpl; [reflexivity|].
    rewrite String.eqb_refl, Z.eqb_refl. simpl.
    destruct (hour + i =? x); simpl; rewrite IH; reflexivity.
  - rewrite count_in_block. change (Z.of_nat 0) with 0. rewrite Z.add_0_r.
    destruct ((hour <=? x) && (x <? hour + Z.of_nat (Z.to_nat (duration - 0))))
      eqn:E1;
      destruct ((hour <=? x) && (x <? hour + duration)) eqn:E2;
      try reflexivity; exfalso; bool_lia.
Qed.





(** The room server's loop ends with the first connection it cannot answer:
    a request without a blank raises, and a reserve of zero or fewer hours
    with otherwise valid parameters returns [None]. Nothing is written back
    and the connections that follow are never served. *)
Theorem room_server_loop_ends sent later d :
  has_char SP (Main.recv sent) = false
  \/ (exists q name day hour duration,
        parse_request accepted_sub_urls (Main.recv sent)
          = Ok ("/reserve", QDict q)
        /\ reserve_query q name day hour duration
        /\ 1 <= day <= 7 /\ 9 <= hour <= 17 /\ duration <= 0
        /\ room_exists d name = true) ->
  Main.start_server handle_request (sent :: later) d = (d, [EmptyString]).
Proof.
  intros [H|(q & name & day & hour & duration & Hp & Hq & Hd & Hh & Hn & Hr)];
    cbn [Main.start_server]; unfold handle_request.
  - unfold parse_request. rewrite (splitn_plain _ _ _ H). reflexivity.
  - rewrite Hp. cbn [String.eqb Ascii.eqb Bool.eqb with_query].
    rewrite (get_reserve_parsed _ _ _ _ _ _ Hq).
    rewrite (between_true _ _ _ Hd), (between_true _ _ _ Hh), Hr. simpl.
    replace (18 <? hour + duration) with false by (symmetry; apply Z.ltb_ge; lia).
    rewrite (range_nonpos _ Hn). reflexivity.
Qed.

(** After a reserve of zero hours the add that follows is not served. *)
Lemma room_server_loop_ends_witness :
  Main.start_server handle_request
    ["GET /reserve?name=A101&day=2&hour=10&duration=0 HTTP/1.1";
     "GET /add?name=B202 HTTP/1.1"]
    (Db ["A101"] [])
  = (Db ["A101"] [], [EmptyString]).
Proof.
  apply room_server_loop_ends. right.
  exists {[ "name" := "A101"; "day" := "2"; "hour" := "10"; "duration" := "0" ]},
         "A101", 2, 10, 0.
  split; [vm_compute; reflexivity|]. split.
  - exists "2", "10", "0". repeat split; reflexivity.
  - repeat split; lia.
Defined.

End RoomTableFacts.

(** ** The activity server *)

Section ActivityFacts.

Import ActivityServer.

Lemma activity_exists_In (d : db) name :
  activity_exists d name = true <-> In name d.
Proof.
  unfold activity_exists. rewrite existsb_exists. split.
  - intros (x & Hx & E). apply String.eqb_eq in E. subst. exact Hx.
  - intros H. exists name. split; [exact H|apply String.eqb_refl].
Qed.

(** Adding, checking and removing an activity name. An absent name is added
    with a 200 and then found by check; a present name is refused with a 403
    by add, and after remove check answers 404; removing an absent name is
    refused with a 403. None of this changes whether any other name is
    found. *)
Theorem activity_add_check_remove (q : gmap string string) (d : db) a :
  q !! "name" = Some a ->
  (activity_exists d a = false ->
   get_remove q d
   = (d, Ok (Bytes (response "403 Forbidden" "Error"
                      ("Activity with name " +:+ a +:+ " does not exist"))))
   /\ snd (get_add q d)
      = Ok (Bytes (response "200 OK" "Activity Added"
                     ("Activity with name " +:+ a +:+ " is added")))
   /\ get_check q (fst (get_add q d))
      = (fst (get_add q d), Ok (Bytes activity_found)))
  /\ (activity_exists d a = true ->
      get_add q d
      = (d, Ok (Bytes (response "403 Forbidden" "Error" "Activity already exists")))
      /\ snd (get_remove q d)
         = Ok (Bytes (response "200 OK" "Activity Removed"
                        ("Activity with name " +:+ a +:+ " is removed")))
      /\ get_check q (fst (get_remove q d))
         = (fst (get_remove q d), Ok (Bytes activity_not_found)))
  /\ forall other, other <> a ->
       activity_exists (fst (get_add q d)) other = activity_exists d other
       /\ activity_exists (fst (get_remove q d)) other = activity_exists d other.
Proof.
  intros Hq. unfold get_add, get_remove, get_check, item. simpl.
  rewrite Hq. simpl. repeat split.
  - rewrite H. reflexivity.
  - rewrite H. reflexivity.
  - rewrite H. simpl.
    replace (activity_exists (d ++ [a]) a) with true; [reflexivity|].
    symmetry. apply activity_exists_In, in_app_iff. right. left. reflexivity.
  - rewrite H. reflexivity.
  - rewrite H. reflexivity.
  - rewrite H. simpl.
    replace (activity_exists (List.filter _ d) a) with false; [reflexivity|].
    symmetry. apply not_true_iff_false. rewrite activity_exists_In.
    rewrite List.filter_In, String.eqb_refl. intros [_ E]. discriminate.
  - destruct (activity_exists d a); simpl; [reflexivity|].
    apply eq_true_iff_eq. rewrite !activity_exists_In, in_app_iff. simpl.
    intuition congruence.
  - destruct (activity_exists d a); simpl; [|reflexivity].
    apply eq_true_iff_eq. rewrite !activity_exists_In, List.filter_In.
    rewrite negb_true_iff, String.eqb_neq. tauto.
Qed.

(** Yoga added to a table that holds Chess. *)
Lemma activity_add_check_remove_witness :
  let q : gmap string string := {[ "name" := "Yoga" ]} in
  get_check q (fst (get_add q ["Chess"]))
  = (fst (get_add q ["Chess"]), Ok (Bytes activity_found)).
Proof.
  intros q.
  destruct (activity_add_check_remove q ["Chess"] "Yoga" eq_refl) as (H & _).
  destruct (H eq_refl) as (_ & _ & H'). exact H'.
Defined.

End ActivityFacts.

(** ** The reservation records *)

Section RecordFacts.

Import ReservationServer.

(** Whatever the two collaborators answer, and whatever the request, the
    reservation server leaves its records as they are or appends exactly
    one; it appends only together with the answer that carries the new
    record's id, the number of records so far plus one. *)
Theorem coordinator_appends_only {W : Type}
    (activity_server room_server : string -> W -> W * string) request d w :
  let out := handle_request activity_server room_server request (d, w) in
  fst (fst out) = d
  \/ exists r,
       fst (fst out) = d ++ [r]
       /\ snd out
          = Ok (Bytes (reservation_succesfull (Z.of_nat (length d) + 1))).
Proof.
  cbv zeta. unfold handle_request.
  destruct (parse_request _ request) as [[sub_url query]|e]; [|left; reflexivity].
  destruct (String.eqb sub_url "/reserve").
  { destruct query as [q|]; [|left; reflexivity]. cbn [with_query].
    unfold get_reserve.
    destruct (check_parameters _ q); [left; reflexivity|].
    destruct (activity_server _ w) as [w1 areply].
    destruct (str_in "404 Not Found" areply); [left; reflexivity|].
    destruct (room_server _ w1) as [w2 rreply].
    destruct (_ || _); [left; reflexivity|].
    right. eexists. split; [reflexivity|]. cbn [snd fst].
    rewrite length_app. simpl length.
    replace (Z.of_nat (length d + 1)) with (Z.of_nat (length d) + 1) by lia.
    reflexivity. }
  destruct (String.eqb sub_url "/listavailability").
  { destruct query as [q|]; [|left; reflexivity]. cbn [with_query].
    unfold get_listavailability.
    destruct (check_parameters _ q); [left; reflexivity|].
    destruct (match q !! "day" with Some _ => _ | None => _ end);
      [|left; reflexivity].
    destruct (for_each _ _ _) as [[w' acc] [r|]]; left; reflexivity. }
  destruct (String.eqb sub_url "/display"); [|left; reflexivity].
  destruct query as [q|]; [|left; reflexivity]. cbn [with_query].
  unfold get_display.
  destruct (check_parameters _ q); [left; reflexivity|].
  destruct (select_by_id d _); left; reflexivity.
Qed.



End RecordFacts.

(** ** Pages and their bodies *)

Section PageFacts.

Import ReservationServer.

Lemma prefix_cons_ne a b (p t : string) :
  a <> b -> String.prefix (String a p) (String b t) = false.
Proof.
  intros H. cbn [String.prefix].
  destruct (Ascii.ascii_dec a b); [contradiction|reflexivity].
Qed.

Lemma prefix_nil (t : string) : String.prefix EmptyString t = true.
Proof. destruct t; reflexivity. Qed.

Lemma prefix_cons_eq a (p t : string) :
  String.prefix (String a p) (String a t) = String.prefix p t.
Proof.
  cbn [String.prefix]. destruct (Ascii.ascii_dec a a); [reflexivity|congruence].
Qed.

Lemma prefix_second_ne a b c (p t : string) :
  b <> c -> String.prefix (String a (String b p)) (String a (String c t)) = false.
Proof.
  intros H. cbn [String.prefix]. destruct (Ascii.ascii_dec a a); [|reflexivity].
  destruct (Ascii.ascii_dec b c); [contradiction|reflexivity].
Qed.

Lemma search_body_cons c (rest : string) :
  c <> "<"%char -> search_body (String c rest) = search_body rest.
Proof.
  intros H. cbn [search_body].
  rewrite prefix_cons_ne by (intros E; apply H; symmetry; exact E).
  reflexivity.
Qed.

Lemma search_body_lt c (rest : string) :
  c <> "B"%char ->
  search_body (String "<" (String c rest)) = search_body (String c rest).
Proof.
  intros H. cbn [search_body].
  change "<BODY>" with (String "<"%char (String "B"%char "ODY>")).
  rewrite prefix_second_ne by (intros E; apply H; symmetry; exact E).
  reflexivity.
Qed.

Lemma search_body_skip (x rest : string) :
  has_char "<"%char x = false -> search_body (x +:+ rest) = search_body rest.
Proof.
  induction x as [|c x IH]; [reflexivity|].
  intros H. cbn [has_char] in H. apply orb_false_iff in H.
  destruct H as [Hc Hx].
  change (String c x +:+ rest) with (String c (x +:+ rest)).
  rewrite search_body_cons by (apply Ascii.eqb_neq; exact Hc).
  exact (IH Hx).
Qed.

Lemma greedy_body (body : string) :
  has_char (Ascii.ascii_of_nat 10) body = false ->
  greedy_until_close (body +:+ "</BODY>" +:+ LF +:+ "</HTML>") = Some body.
Proof.
  induction body as [|c body IH]; [reflexivity|].
  intros H. simpl in H. apply orb_false_iff in H. destruct H as [Hc Hb].
  change (String c body +:+ "</BODY>" +:+ LF +:+ "</HTML>")
    with (String c (body +:+ "</BODY>" +:+ LF +:+ "</HTML>")).
  cbn [greedy_until_close]. rewrite Hc, (IH Hb). reflexivity.
Qed.

(** The body [get_listavailability] cuts out of a page is the body that
    [base_html.format] put in, for any status and title without [<] and any
    body without a line break, even one that holds the closing tag. *)
Theorem search_body_response (status title body : string) :
  has_char "<"%char status = false -> has_char "<"%char title = false ->
  has_char (Ascii.ascii_of_nat 10) body = false ->
  search_body (response status title body) = Some body.
Proof.
  intros Hs Ht Hb. unfold response, base_html. simpl.
  repeat (rewrite search_body_cons by discriminate).
  rewrite (search_body_skip status) by exact Hs.
  repeat first [rewrite search_body_cons by discriminate
               |rewrite search_body_lt by discriminate].
  rewrite (search_body_skip title) by exact Ht.
  repeat first [rewrite search_body_cons by discriminate
               |rewrite search_body_lt by discriminate].
  cbn [search_body]. rewrite !prefix_cons_eq, prefix_nil.
  cbn [drop]. pose proof (greedy_body body Hb) as G. simpl in G.
  rewrite G. reflexivity.
Qed.

(** A body that itself holds a closing tag. *)
Lemma search_body_response_witness :
  search_body (response "200 OK" "Availability" "free: 9 </BODY> 10")
  = Some "free: 9 </BODY> 10".
Proof. apply search_body_response; reflexivity. Defined.

(** *** Error markers *)

Lemma str_in_cons_ne a c (needle rest : string) :
  a <> c ->
  str_in (String a needle) (String c rest) = str_in (String a needle) rest.
Proof.
  intros H. cbn [str_in]. rewrite prefix_cons_ne by exact H. reflexivity.
Qed.

Lemma str_in_skip a (needle x rest : string) :
  has_char a x = false ->
  str_in (String a needle) (x +:+ rest) = str_in (String a needle) rest.
Proof.
  induction x as [|c x IH]; [reflexivity|].
  intros H. cbn [has_char] in H. apply orb_false_iff in H.
  destruct H as [Hc Hx].
  change (String c x +:+ rest) with (String c (x +:+ rest)).
  rewrite str_in_cons_ne
    by (intros E; apply Ascii.eqb_neq in Hc; apply Hc; symmetry; exact E).
  exact (IH Hx).
Qed.

Lemma prefix_take (needle hay : string) (k : nat) :
  String.prefix needle (Main.take k hay) = true ->
  String.prefix needle hay = true.
Proof.
  revert hay k. induction needle as [|a needle IH]; intros hay k.
  - intros _. apply prefix_nil.
  - destruct k as [|k], hay as [|b hay]; try discriminate.
    cbn [Main.take String.prefix].
    destruct (Ascii.ascii_dec a b); [apply IH|discriminate].
Qed.

(** What is found in the bytes read was in the bytes sent. *)
Lemma str_in_take (needle hay : string) (k : nat) :
  str_in needle hay = false -> str_in needle (Main.take k hay) = false.
Proof.
  intros H. apply not_true_iff_false. intros T. apply not_true_iff_false in H.
  apply H. clear H. revert k T.
  induction hay as [|b hay IH]; intros k T.
  - destruct k; exact T.
  - destruct k as [|k].
    + cbn [Main.take str_in] in T. rewrite orb_false_r in T.
      cbn [str_in]. destruct needle; [reflexivity|discriminate T].
    + cbn [Main.take str_in] in T. cbn [str_in].
      apply orb_true_iff in T. apply orb_true_iff. destruct T as [T|T].
      * left. apply (prefix_take _ (String b hay) (S k)). exact T.
      * right. exact (IH k T).
Qed.

(** Walks a marker along a text of unknown characters, one comparison at a
    time. *)
Ltac walk_prefix :=
  repeat (cbn [String.prefix];
          match goal with
          | |- context [Ascii.ascii_dec ?a ?b] =>
              destruct (Ascii.ascii_dec a b); [subst|reflexivity]
          end).

Local Abbreviation reserved_tail :=
  (" is succesfuly reserved.</BODY>" +:+ LF +:+ "</HTML>").

Lemma marker_not_at_name (marker : string) (y : string) :
  marker = "400 Bad Request" \/ marker = "403 Forbidden" ->
  has_char SP y = false ->
  String.prefix marker (y +:+ reserved_tail) = false.
Proof.
  intros Hm Hy.
  destruct y as [|c0 [|c1 [|c2 [|c3 y]]]];
    destruct Hm as [->| ->];
    try (vm_compute; reflexivity);
    change (String ?a ?x +:+ reserved_tail) with (String a (x +:+ reserved_tail));
    repeat change (String ?a ?x +:+ reserved_tail)
      with (String a (x +:+ reserved_tail));
    walk_prefix; try (vm_compute; reflexivity);
    vm_compute in Hy; discriminate Hy.
Qed.

Lemma marker_not_in_name (marker : string) (name : string) :
  marker = "400 Bad Request" \/ marker = "403 Forbidden" ->
  has_char SP name = false ->
  str_in marker (name +:+ reserved_tail) = false.
Proof.
  intros Hm. induction name as [|c name IH]; intros Hn.
  - destruct Hm as [->| ->]; vm_compute; reflexivity.
  - pose proof (marker_not_at_name marker (String c name) Hm Hn) as Hp.
    change (String c name +:+ reserved_tail)
      with (String c (name +:+ reserved_tail)) in *.
    cbn [has_char] in Hn. apply orb_false_iff in Hn. destruct Hn as [_ Hn].
    assert (E : str_in marker (String c (name +:+ reserved_tail))
                = String.prefix marker (String c (name +:+ reserved_tail))
                  || str_in marker (name +:+ reserved_tail))
      by (destruct marker; reflexivity).
    rewrite E, Hp, (IH Hn). reflexivity.
Qed.

(** The room server's 200 page for a room name without blanks holds neither
    error marker, however much of it is read. *)
Lemma success_page_unmarked (name : string) :
  has_char SP name = false ->
  str_in "400 Bad Request" (Main.recv (RoomServer.reservation_successful name))
  || str_in "403 Forbidden" (Main.recv (RoomServer.reservation_successful name))
  = false.
Proof.
  intros Hn.
  assert (E : RoomServer.reservation_successful name
              = ("HTTP/1.1 200 OK" +:+ LF +:+ LF +:+ "<HTML>" +:+ LF +:+ "<HEAD>"
                 +:+ LF +:+ "<TITLE>Reservation Successful</TITLE>" +:+ LF
                 +:+ "</HEAD>" +:+ LF +:+ "<BODY>Room ")
                +:+ (name +:+ reserved_tail)).
  { unfold RoomServer.reservation_successful, response, base_html.
    repeat (progress (simpl; rewrite ?append_assoc)). reflexivity. }
  unfold Main.recv. apply orb_false_iff. split; apply str_in_take; rewrite E.
  - change "400 Bad Request" with (String "4"%char "00 Bad Request").
    rewrite str_in_skip by (vm_compute; reflexivity).
    apply marker_not_in_name; [left; reflexivity|exact Hn].
  - change "403 Forbidden" with (String "4"%char "03 Forbidden").
    rewrite str_in_skip by (vm_compute; reflexivity).
    apply marker_not_in_name; [right; reflexivity|exact Hn].
Qed.

End PageFacts.

(** ** The coordinator's reserve, end to end *)

(** Closes a goal in which a concrete reply of the room server is read and
    searched for the two error markers. *)
Ltac relay_reply :=
  match goal with
  | |- context [Main.recv ?x] =>
      let R := fresh "R" in
      assert (R : Main.recv x = x) by (vm_compute; reflexivity);
      rewrite R; clear R;
      let M := fresh "M" in
      assert (M : str_in "400 Bad Request" x || str_in "403 Forbidden" x = true)
        by (vm_compute; reflexivity);
      rewrite M; reflexivity
  end.

Section ReserveFacts.

Import ReservationServer.

Lemma plain_no_blank (s : string) : plain s = true -> has_char SP s = false.
Proof.
  unfold plain. intros H. apply negb_true_iff in H.
  repeat (apply orb_false_iff in H; destruct H as [H _]). exact H.
Qed.

(** With a known activity the coordinator's answer is decided by what the
    room server makes of the four forwarded parameters: the forwarded
    request always fits one read. *)
Lemma reserve_forwarded sent d w query :
  parse_request accepted_sub_urls (Main.recv sent) = Ok ("/reserve", QDict query) ->
  check_parameters ["activity"; "room"; "day"; "hour"; "duration"] query = None ->
  ActivityServer.activity_exists (Main.activity_db w) (item query "activity")
    = true ->
  let r := item query "room" in
  let a := item query "activity" in
  let dy := item query "day" in
  let h := item query "hour" in
  let n := item query "duration" in
  let out := RoomServer.get_reserve
               (dict_of [("name", r); ("day", dy); ("hour", h); ("duration", n)])
               (Main.room_db w) in
  let reply := Main.recv match snd out with
                         | Ok (Bytes s) => s
                         | _ => EmptyString
                         end in
  let w' := Main.World (fst out) (Main.room_log w ++ [reserve_request r dy h n])
              (Main.activity_db w) (Main.activity_log w ++ [check_request a]) in
  plain r = true
  /\ Main.reservation_server (Main.recv sent) (d, w)
     = if str_in "400 Bad Request" reply || str_in "403 Forbidden" reply then
         ((d, w'), Ok (Bytes reply))
       else
         ((d ++ [Reservation r a (integer_affinity dy) (integer_affinity h)
                   (integer_affinity n)], w'),
          Ok (Bytes (reservation_succesfull (Z.of_nat (length d) + 1)))).
Proof.
  intros Hp Hc Ha.
  destruct (parse_request_values _ _ _ _ Hp) as [Hvals Hw].
  pose proof (recv_length sent) as Hlen.
  pose proof (check_parameters_none _ _ Hc) as Hkeys.
  inversion Hkeys as [|? ? Hact Hk1]; subst.
  inversion Hk1 as [|? ? Hroom Hk2]; subst.
  inversion Hk2 as [|? ? Hday Hk3]; subst.
  inversion Hk3 as [|? ? Hhour Hk4]; subst.
  inversion Hk4 as [|? ? Hdur _]; subst.
  pose proof (weight_reserve_keys _ _ _ _ _ _ Hact Hroom Hday Hhour Hdur) as Hsum.
  pose proof (Hvals _ _ Hact) as Pa. pose proof (Hvals _ _ Hroom) as Pr.
  pose proof (Hvals _ _ Hday) as Pd. pose proof (Hvals _ _ Hhour) as Ph.
  pose proof (Hvals _ _ Hdur) as Pn. simpl in Pa, Pr, Pd, Ph, Pn, Hw.
  cbv zeta. split; [exact Pr|].
  unfold Main.reservation_server, handle_request. rewrite Hp.
  cbn [String.eqb Ascii.eqb Bool.eqb with_query].
  unfold get_reserve. rewrite Hc.
  rewrite (activity_server_check _ w Pa) by lia. rewrite Ha.
  replace (str_in "404 Not Found" ActivityServer.activity_found)
    with false by (vm_compute; reflexivity).
  rewrite (room_server_reserve _ _ _ _ _ Pr Pd Ph Pn) by lia.
  cbn [Main.room_db Main.room_log Main.activity_db Main.activity_log].
  destruct (str_in "400 Bad Request" _ || str_in "403 Forbidden" _);
    [reflexivity|].
  rewrite length_app. cbn [length].
  replace (Z.of_nat (length d + 1)) with (Z.of_nat (length d) + 1) by lia.
  reflexivity.
Qed.





(** On a day that [int()] does not read the room server raises ValueError
    before it looks at its tables. *)
Lemma room_reserve_day_unread r dy h n rdb :
  int dy = None ->
  RoomServer.get_reserve
    (dict_of [("name", r); ("day", dy); ("hour", h); ("duration", n)]) rdb
  = (rdb, Raise ValueError).
Proof.
  intros Hint.
  set (q := dict_of [("name", r); ("day", dy); ("hour", h); ("duration", n)]).
  assert (H1 : q !! "name" = Some r)
    by (unfold q, dict_of; cbn [fold_left fst snd]; simplify_map_eq; reflexivity).
  assert (H2 : q !! "day" = Some dy)
    by (unfold q, dict_of; cbn [fold_left fst snd]; simplify_map_eq; reflexivity).
  assert (H3 : q !! "hour" = Some h)
    by (unfold q, dict_of; cbn [fold_left fst snd]; simplify_map_eq; reflexivity).
  assert (H4 : q !! "duration" = Some n)
    by (unfold q, dict_of; cbn [fold_left fst snd]; simplify_map_eq; reflexivity).
  unfold RoomServer.get_reserve, item. cbn [check_parameters].
  rewrite H1, H2, H3, H4. cbn [default from_option]. unfold id.
  rewrite Hint. reflexivity.
Qed.



End ReserveFacts.

(** ** Availability over the week, on concrete tables *)

Section ListFacts.

Import ReservationServer.

(** A101 is taken on Monday at 9: seven queries, seven lines. *)
Lemma listavailability_week_witness :
  let sent := "GET /listavailability?room=A101 HTTP/1.1" in
  let rdb := RoomServer.Db ["A101"] [("A101", 1, 9)] in
  let w := Main.World rdb [] ["Yoga"] [] in
  Main.reservation_server (Main.recv sent) ([], w)
  = (([], Main.World rdb (map (checkavailability_request "A101") (range2 1 8))
            ["Yoga"] []),
     Ok (Bytes (response "200 OK" "Availabilities"
                  (String.concat EmptyString
                     (map (Main.day_line rdb "A101") (range2 1 8)))))).
Proof.
  intros sent rdb w.
  pose (q := {[ "room" := "A101" ]} : gmap string string).
  assert (Hp : parse_request accepted_sub_urls (Main.recv sent)
               = Ok ("/listavailability", QDict q)) by (vm_compute; reflexivity).
  assert (Hr : q !! "room" = Some "A101") by reflexivity.
  assert (Hd : q !! "day" = None) by reflexivity.
  assert (Hl : (String.length "A101" + 36 <= 1024)%nat) by (simpl; lia).
  exact (listavailability_week sent [] w q "A101" Hp Hr Hd Hl).
Defined.


End ListFacts.
